(** * QuestScholar: paper store, critic ledger and report composer

    A shallow embedding of [my_tools.py]: the text helpers, the process-wide
    paper collection [COLLECTED_PAPERS], the critic ledger
    [CRITIC_EVALUATIONS], the critic tool and the two report generators.

    Conventions of the embedding.
    - A Python [str] is a Rocq [string] holding UTF-8 text, as a Rocq string
      literal does.  The character classes ([str.lower], [str.isspace],
      [str.isalnum]) are Python's on the ASCII range; the Unicode tables
      behind them for other characters are not part of the repository, and
      the bytes of a non-ASCII character are taken to be caseless letters.
    - A Python [float] is an IEEE binary64 number: Rocq's primitive [float].
    - A decoded JSON value is a [json]; an [int] is a [Z].
    - A paper dictionary is an object with an identity: the collection holds
      references ([ref]) into a store of objects, so that the in-place
      updates of the report generators are seen through every alias.
    - A raised exception is a value of [exn], threaded by the [result]
      monad. *)

From Stdlib Require Import ZArith String Ascii List Floats.
From stdpp Require Import gmap strings list fin_maps functions sorting pretty.

(* Decimal literals such as 0.4 denote the nearest binary64 number, exactly as
   Python's parser reads them. *)
#[local] Set Warnings "-inexact-float,-register-all,-clear-no-such-hyp".

#[local] Open Scope Z_scope.

(** ** Python text *)

Module Str.

Definition ord (c : ascii) : N := N_of_ascii c.

(** [str.isspace] on one character: TAB, LF, VT, FF, CR, the four
    separators FS, GS, RS, US and the space. *)
Definition isspace (c : ascii) : bool :=
  let n := ord c in
  ((9 <=? n) && (n <=? 13) || (28 <=? n) && (n <=? 32))%N.

Definition isupper (c : ascii) : bool :=
  let n := ord c in ((65 <=? n) && (n <=? 90))%N.

(** [str.isalnum] on one character. *)
Definition isalnum (c : ascii) : bool :=
  let n := ord c in
  ((48 <=? n) && (n <=? 57) || (65 <=? n) && (n <=? 90)
   || (97 <=? n) && (n <=? 122) || (128 <=? n))%N.

Definition lower_char (c : ascii) : ascii :=
  if isupper c then ascii_of_N (ord c + 32) else c.

(** [s.lower()] *)
Fixpoint lower (s : string) : string :=
  match s with
  | EmptyString => EmptyString
  | String c s' => String (lower_char c) (lower s')
  end.

Fixpoint lstrip (s : string) : string :=
  match s with
  | EmptyString => EmptyString
  | String c s' => if isspace c then lstrip s' else s
  end.

Fixpoint rstrip (s : string) : string :=
  match s with
  | EmptyString => EmptyString
  | String c s' =>
      match rstrip s' with
      | EmptyString => if isspace c then EmptyString else String c EmptyString
      | r => String c r
      end
  end.

(** [s.strip()] *)
Definition strip (s : string) : string := rstrip (lstrip s).

(** [''.join(filter(f, s))] *)
Fixpoint filter_chars (f : ascii -> bool) (s : string) : string :=
  match s with
  | EmptyString => EmptyString
  | String c s' => if f c then String c (filter_chars f s') else filter_chars f s'
  end.

(** [s.split()]: the maximal runs of characters that are not whitespace. *)
Fixpoint split (s : string) : list string :=
  match s with
  | EmptyString => []
  | String c s' =>
      if isspace c then split s'
      else match s' with
           | EmptyString => [String c EmptyString]
           | String c' _ =>
               if isspace c' then String c EmptyString :: split s'
               else match split s' with
                    | w :: ws => String c w :: ws
                    | [] => [String c EmptyString]
                    end
           end
  end.

(** [sep.join(l)] *)
Fixpoint join (sep : string) (l : list string) : string :=
  match l with
  | [] => EmptyString
  | [w] => w
  | w :: ws => w +:+ sep +:+ join sep ws
  end.

Fixpoint starts_with (p s : string) : bool :=
  match p, s with
  | EmptyString, _ => true
  | String a p', String b s' => if decide (a = b) then starts_with p' s' else false
  | String _ _, EmptyString => false
  end.

(** [s.replace(old, new)] for a non-empty [old]: the occurrences of [old]
    are found from the left and do not overlap.  [skip] counts the
    characters of a matched occurrence still to be passed over. *)
Fixpoint replace_from (skip : nat) (old new s : string) : string :=
  match s with
  | EmptyString => EmptyString
  | String c s' =>
      match skip with
      | S k => replace_from k old new s'
      | O =>
          if starts_with old s
          then new +:+ replace_from (String.length old - 1) old new s'
          else String c (replace_from O old new s')
      end
  end.

Definition replace (old new s : string) : string := replace_from O old new s.

(** [s[:n]] *)
Fixpoint take (n : nat) (s : string) : string :=
  match n, s with
  | S k, String c s' => String c (take k s')
  | _, _ => EmptyString
  end.

Definition byte (n : N) : string := String (ascii_of_N n) EmptyString.

(** The UTF-8 encoding of one code point: the text of an escape such as
    U+2014 in a Python literal. *)
Definition chr (cp : N) : string :=
  (if cp <? 128 then byte cp
   else if cp <? 2048 then byte (192 + cp / 64) +:+ byte (128 + cp mod 64)
   else if cp <? 65536 then
     byte (224 + cp / 4096) +:+ byte (128 + (cp / 64) mod 64) +:+ byte (128 + cp mod 64)
   else
     byte (240 + cp / 262144) +:+ byte (128 + (cp / 4096) mod 64)
     +:+ byte (128 + (cp / 64) mod 64) +:+ byte (128 + cp mod 64))%N.

End Str.

(** ** Python values and exceptions *)

(** A value decoded by [json.loads]; an object keeps its members in the order
    of the document, one binding per key. *)
Inductive json : Type :=
| JNull
| JBool (b : bool)
| JInt (n : Z)
| JFloat (f : float)
| JStr (s : string)
| JList (l : list json)
| JObj (d : list (string * json)).

Inductive exn : Type := AttributeError | TypeError | ValueError | OverflowError.

Inductive result (A : Type) : Type :=
| Ok (a : A)
| Raise (e : exn).
Arguments Ok {A} a.
Arguments Raise {A} e.

#[global] Instance result_bind : MBind result := fun A B k m =>
  match m with
  | Ok a => k a
  | Raise e => Raise e
  end.

Module Py.

(** [d.get(k, dflt)] on a dictionary. *)
Fixpoint dict_get (d : list (string * json)) (k : string) (dflt : json) : json :=
  match d with
  | [] => dflt
  | (k', v) :: d' => if decide (k' = k) then v else dict_get d' k dflt
  end.

(** [x.get(k, dflt)]: only a dictionary has the method. *)
Definition get (x : json) (k : string) (dflt : json) : result json :=
  match x with
  | JObj d => Ok (dict_get d k dflt)
  | _ => Raise AttributeError
  end.

(** [x.lower()]: only a string has the method. *)
Definition lower (x : json) : result string :=
  match x with
  | JStr s => Ok (Str.lower s)
  | _ => Raise AttributeError
  end.

(** The conversion of an [int] to a [float]: correctly rounded, and an
    [OverflowError] when the integer is beyond the largest float. *)
Definition float_of_int (n : Z) : result float :=
  let f := SF2Prim (binary_normalize prec emax n 0 false) in
  if is_infinity f then Raise OverflowError else Ok f.

(** [x * c] for a float [c]: defined on floats, integers and booleans. *)
Definition mul_float (x : json) (c : float) : result float :=
  match x with
  | JFloat f => Ok (f * c)%float
  | JInt n => f ← float_of_int n; Ok (f * c)%float
  | JBool b => Ok ((if b then 1 else 0) * c)%float
  | _ => Raise TypeError
  end.

(** What [for x in v] ranges over: the items of a list, the keys of a
    dictionary, the characters of a string; nothing else is iterable. *)
Fixpoint chars (s : string) : list json :=
  match s with
  | EmptyString => []
  | String c s' => JStr (String c EmptyString) :: chars s'
  end.

Definition iter (v : json) : result (list json) :=
  match v with
  | JList l => Ok l
  | JObj d => Ok (map (fun kv => JStr (fst kv)) d)
  | JStr s => Ok (chars s)
  | _ => Raise TypeError
  end.

End Py.

(** ** The text helpers of my_tools.py *)

Definition NO_ABSTRACT : string := "No abstract available.".

(** [xml.sax.saxutils.escape(data)]: the ampersand first, then the two angle
    brackets. *)
Definition escape (data : string) : string :=
  Str.replace "<" "&lt;" (Str.replace ">" "&gt;" (Str.replace "&" "&amp;" data)).

(** The table [replacements] of [clean_text], in the order of the source. *)
Definition replacements : list (string * string) :=
  [ (Str.chr 0x2010, "-"); (Str.chr 0x2011, "-"); (Str.chr 0x2012, "-");
    (Str.chr 0x2013, "-"); (Str.chr 0x2014, "--"); (Str.chr 0x2015, "--");
    (Str.chr 0x2018, "'"); (Str.chr 0x2019, "'");
    (Str.chr 0x201c, Str.byte 34); (Str.chr 0x201d, Str.byte 34);
    (Str.chr 0x2026, "..."); (Str.chr 0xa0, " ") ]%N.

Definition replace_all (table : list (string * string)) (text : string) : string :=
  fold_left (fun t r => Str.replace r.1 r.2 t) table text.

Section clean_text.

(** Two library calls of [clean_text], taken as they are:
    [BeautifulSoup(text, "html.parser").get_text()] and
    [unicodedata.normalize('NFKD', text)]. *)
Variable get_text : string -> string.
Variable normalize_NFKD : string -> string.

(** [clean_text(text)]; [None] is a missing text. *)
Definition clean_text (text : option string) : string :=
  match text with
  | None => NO_ABSTRACT
  | Some EmptyString => NO_ABSTRACT
  | Some text => escape (replace_all replacements (normalize_NFKD (get_text text)))
  end.

End clean_text.

(** [truncate_abstract(text, n)] *)
Definition truncate_abstract (text : string) (n : nat) : string :=
  if decide (text = EmptyString) then text
  else if decide (text = NO_ABSTRACT) then text
  else
    let words := Str.split text in
    if decide (n < length words)%nat
    then Str.join " " (take n words) +:+ "..."
    else text.

(** ** The data model *)

(** One entry of [CRITIC_EVALUATIONS]: seven fields copied from the payload
    as they come, and the composite score computed at ingestion. *)
Record evaluation : Type := Evaluation {
  relevance_score : json;
  methodological_soundness : json;
  impact_score : json;
  redundancy_flag : json;
  flags : json;
  recommended_action : json;
  rationale : json;
  overall_score : float
}.

(** A paper dictionary as the four search tools build it, and the three keys
    the report generators add to it ([None]: the key is absent). *)
Record paper : Type := Paper {
  title : string;
  authors : list string;
  pub_year : json;
  abstract : string;
  url : string;
  source : string;
  citation_count : Z;
  venue : string;
  paper_id : string;
  critic_evaluation : option evaluation;
  critic_rank : option float;
  critic_action : option json
}.

Definition set_critic_evaluation (ev : evaluation) (p : paper) : paper :=
  Paper (title p) (authors p) (pub_year p) (abstract p) (url p) (source p)
        (citation_count p) (venue p) (paper_id p)
        (Some ev) (critic_rank p) (critic_action p).

Definition set_critic_rank (r : float) (p : paper) : paper :=
  Paper (title p) (authors p) (pub_year p) (abstract p) (url p) (source p)
        (citation_count p) (venue p) (paper_id p)
        (critic_evaluation p) (Some r) (critic_action p).

Definition set_critic_action (a : json) (p : paper) : paper :=
  Paper (title p) (authors p) (pub_year p) (abstract p) (url p) (source p)
        (citation_count p) (venue p) (paper_id p)
        (critic_evaluation p) (critic_rank p) (Some a).

(** The text of a paragraph: an f-string kept as its pieces, so that the
    formatting of a float ([{x:.1f}]) and the clock stay symbolic. *)
Inductive piece : Type :=
| Lit (s : string)
| Num (n : nat)
| NumZ (n : Z)
| Fixed (digits : nat) (x : float)
| Val (v : json)
| Today (format : string).

(** The flowables of the PDF story. *)
Inductive flowable : Type :=
| Paragraph (text : list piece) (style : string)
| Spacer (height_cm : float)
| PageBreak
| KeepTogether (elements : list flowable).

(** What a report generator writes to disk: the story handed to
    [doc.build], or the page [_generate_html] returned. *)
Inductive document : Type :=
| PDFDocument (story : list flowable)
| HTMLDocument (html_content : string).

(** The identity of a paper object. *)
Abbreviation ref := nat.

(** The process: the paper objects, the two module globals, and the files of
    the working directory. *)
Record state : Type := State {
  objects : ref -> paper;
  COLLECTED_PAPERS : list ref;
  CRITIC_EVALUATIONS : gmap string evaluation;
  files : gmap string document
}.

Definition set_papers (l : list ref) (st : state) : state :=
  State (objects st) l (CRITIC_EVALUATIONS st) (files st).

Definition set_evaluations (m : gmap string evaluation) (st : state) : state :=
  State (objects st) (COLLECTED_PAPERS st) m (files st).

Definition set_objects (h : ref -> paper) (st : state) : state :=
  State h (COLLECTED_PAPERS st) (CRITIC_EVALUATIONS st) (files st).

Definition write_file (name : string) (d : document) (st : state) : state :=
  State (objects st) (COLLECTED_PAPERS st) (CRITIC_EVALUATIONS st) (<[name := d]> (files st)).

(** ** CriticTool *)

(** What [json.loads(evaluations)] did: raised [JSONDecodeError] with a
    message, or returned a value.  The decoder is Python's, not the
    repository's; its outcome is the input of the model. *)
Inductive decoded : Type :=
| DecodeError (msg : string)
| Decoded (v : json).

(** The string [evaluate_papers] returns, by the branch that built it. *)
Inductive critic_reply : Type :=
| CriticSuccess (count : nat)
| CriticInvalidJSON (msg : string)
| CriticError (e : exn).

(** The string [deduplicate_collection] returns. *)
Inductive dedup_reply : Type :=
| NothingToDeduplicate
| DeduplicationSuccess (removed remaining : nat).

Module CriticTool.

(** The weighted sum of lines 274-278, in the order Python evaluates it. *)
Definition composite (eval_item : json) : result float :=
  r ← Py.get eval_item "relevance_score" (JFloat 3.0);
  a ← Py.mul_float r 0.4;
  m ← Py.get eval_item "methodological_soundness" (JFloat 3.0);
  b ← Py.mul_float m 0.3;
  i ← Py.get eval_item "impact_score" (JFloat 3.0);
  c ← Py.mul_float i 0.3;
  Ok (a + b + c)%float.

(** The body of the loop of [evaluate_papers] for one item: the key, then
    the dictionary display, then the store into the ledger. *)
Definition evaluate_item (eval_item : json) (ledger : gmap string evaluation)
  : result (gmap string evaluation) :=
  t ← Py.get eval_item "paper_title" (JStr "");
  l ← Py.lower t;
  let title := Str.strip l in
  rel ← Py.get eval_item "relevance_score" (JFloat 3.0);
  met ← Py.get eval_item "methodological_soundness" (JFloat 3.0);
  imp ← Py.get eval_item "impact_score" (JFloat 3.0);
  red ← Py.get eval_item "redundancy_flag" (JBool false);
  fl ← Py.get eval_item "flags" (JList []);
  act ← Py.get eval_item "recommended_action" (JStr "include");
  rat ← Py.get eval_item "rationale" (JStr "");
  overall ← composite eval_item;
  Ok (<[title := Evaluation rel met imp red fl act rat overall]> ledger).

(** The [for] loop: an exception leaves the loop with the ledger as the
    items before it have left it. *)
Fixpoint evaluate_loop (items : list json) (ledger : gmap string evaluation) (count : nat)
  : gmap string evaluation * critic_reply :=
  match items with
  | [] => (ledger, CriticSuccess count)
  | eval_item :: rest =>
      match evaluate_item eval_item ledger with
      | Ok ledger' => evaluate_loop rest ledger' (S count)
      | Raise e => (ledger, CriticError e)
      end
  end.

(** [evaluate_papers(evaluations)] *)
Definition evaluate_papers (evaluations : decoded) (st : state) : state * critic_reply :=
  match evaluations with
  | DecodeError msg => (st, CriticInvalidJSON msg)
  | Decoded evals =>
      match Py.iter evals with
      | Ok items =>
          let (ledger, reply) := evaluate_loop items (CRITIC_EVALUATIONS st) 0 in
          (set_evaluations ledger st, reply)
      | Raise e => (st, CriticError e)
      end
  end.

(** The reduced view of one paper (lines 299-307). *)
Definition paper_view (p : paper) : json :=
  JObj [ ("title", JStr (title p));
         ("authors", JList (JStr <$> take 3 (authors p)));
         ("pub_year", pub_year p);
         ("abstract", JStr (truncate_abstract (abstract p) 150));
         ("source", JStr (source p));
         ("citation_count", JInt (citation_count p));
         ("venue", JStr (venue p)) ].

(** [get_papers_for_evaluation()]: the value handed to [json.dumps]. *)
Definition get_papers_for_evaluation (st : state) : json :=
  match COLLECTED_PAPERS st with
  | [] => JObj [("error", JStr "No papers available for evaluation")]
  | _ =>
      let papers_for_eval := (fun r => paper_view (objects st r)) <$> COLLECTED_PAPERS st in
      JObj [ ("total_papers", JInt (Z.of_nat (length papers_for_eval)));
             ("papers", JList papers_for_eval) ]
  end.

(** The normalised title of line 329-330. *)
Definition clean_title (p : paper) : string :=
  Str.strip (Str.filter_chars Str.isalnum (Str.lower (title p))).

(** The loop of [deduplicate_collection]. *)
Fixpoint dedup_loop (h : ref -> paper) (papers : list ref)
    (seen_titles : gset string) (unique_papers : list ref) : list ref :=
  match papers with
  | [] => unique_papers
  | r :: rest =>
      let t := clean_title (h r) in
      if decide (t = EmptyString \/ t = "untitled")
      then dedup_loop h rest seen_titles (unique_papers ++ [r])
      else if decide (t ∈ seen_titles)
      then dedup_loop h rest seen_titles unique_papers
      else dedup_loop h rest ({[t]} ∪ seen_titles) (unique_papers ++ [r])
  end.

(** [deduplicate_collection()] *)
Definition deduplicate_collection (st : state) : state * dedup_reply :=
  match COLLECTED_PAPERS st with
  | [] => (st, NothingToDeduplicate)
  | _ =>
      let initial_count := length (COLLECTED_PAPERS st) in
      let unique_papers := dedup_loop (objects st) (COLLECTED_PAPERS st) ∅ [] in
      (set_papers unique_papers st,
       DeduplicationSuccess (initial_count - length unique_papers) (length unique_papers))
  end.

End CriticTool.

(** ** The report composer *)

(** The shared first half of [generate_report] and [generate_html_report]
    (lines 354-380 and 629-655, the same text): join and deduplicate, sort,
    filter. *)
Module Composer.

(** [p['title'].lower().strip()] *)
Definition key (p : paper) : string := Str.strip (Str.lower (title p)).

(** The branches of lines 362-368 on the paper [p]. *)
Definition attach (ledger : gmap string evaluation) (k : string) (p : paper) : paper :=
  match ledger !! k with
  | Some ev =>
      set_critic_action (recommended_action ev)
        (set_critic_rank (overall_score ev) (set_critic_evaluation ev p))
  | None => set_critic_action (JStr "include") (set_critic_rank 3.0 p)
  end.

(** The first loop: [p] is a reference, and the assignments to its keys
    update the object it refers to. *)
Fixpoint join_loop (ledger : gmap string evaluation) (papers : list ref)
    (h : ref -> paper) (seen : gset string) (unique_papers : list ref)
  : (ref -> paper) * list ref :=
  match papers with
  | [] => (h, unique_papers)
  | p :: rest =>
      let k := key (h p) in
      if decide (k ∈ seen) then join_loop ledger rest h seen unique_papers
      else join_loop ledger rest (<[p := attach ledger k (h p)]> h)
                     ({[k]} ∪ seen) (unique_papers ++ [p])
  end.

(** The sort key [(x.get('critic_rank', 0), x.get('citation_count', 0))]. *)
Definition sort_key (p : paper) : float * Z :=
  (default 0%float (critic_rank p), citation_count p).

(** Python's [<] on two such tuples: the first components decide unless
    they are equal. *)
Definition key_lt (a b : float * Z) : bool :=
  if (a.1 =? b.1)%float then (a.2 <? b.2)%Z else (a.1 <? b.1)%float.

(** [l.sort(key=..., reverse=True)]: a stable sort into descending order,
    written as the insertion of each element before the first one it is
    not smaller than.  (Python fixes the result of [sort] only through
    stability and the order of the keys, which for keys that [<] orders
    totally determines it.) *)
Fixpoint insert_desc (h : ref -> paper) (x : ref) (l : list ref) : list ref :=
  match l with
  | [] => [x]
  | y :: l' =>
      if key_lt (sort_key (h x)) (sort_key (h y))
      then y :: insert_desc h x l'
      else x :: l
  end.

Definition sort_reverse (h : ref -> paper) (l : list ref) : list ref :=
  foldr (insert_desc h) [] l.

(** [p.get('critic_action') != 'exclude'] *)
Definition not_excluded (p : paper) : bool :=
  match critic_action p with
  | Some (JStr s) => bool_decide (s ≠ "exclude")
  | _ => true
  end.

Record composed : Type := Composed {
  heap : ref -> paper;
  unique_papers : list ref;
  included_papers : list ref;
  excluded_count : nat
}.

Definition compose (st : state) : composed :=
  let (h, unique) :=
    join_loop (CRITIC_EVALUATIONS st) (COLLECTED_PAPERS st) (objects st) ∅ [] in
  let sorted := sort_reverse h unique in
  let included := filter (fun p => not_excluded (h p)) sorted in
  Composed h sorted included (length sorted - length included).

(** The status line both generators return. *)
Definition summary_msg (head : string) (included excluded : nat) : string :=
  head +:+ pretty included +:+ " papers"
  +:+ (if decide (0 < excluded)%nat
       then ", " +:+ pretty excluded +:+ " excluded by critic" else "")
  +:+ ")".

End Composer.

(** ** PDFReportTool *)

Module PDFReportTool.
Import Composer.

Definition STAR : string := "★".

(** [format(v, '.Nf')] inside an f-string. *)
Definition fixed (digits : nat) (v : json) : result piece :=
  match v with
  | JFloat f => Ok (Fixed digits f)
  | JInt n => f ← Py.float_of_int n; Ok (Fixed digits f)
  | JBool b => Ok (Fixed digits (if b then 1 else 0)%float)
  | JStr _ => Raise ValueError
  | _ => Raise TypeError
  end.

(** The truth value of [v] in an [if]. *)
Definition truthy (v : json) : bool :=
  match v with
  | JNull => false
  | JBool b => b
  | JInt n => negb (n =? 0)%Z
  | JFloat f => negb (f =? 0)%float
  | JStr s => negb (String.eqb s EmptyString)
  | JList l => negb (bool_decide (length l = 0%nat))
  | JObj d => negb (bool_decide (length d = 0%nat))
  end.

(** The items [', '.join(v)] joins: every one must be a string. *)
Fixpoint strings_of (l : list json) : result (list string) :=
  match l with
  | [] => Ok []
  | JStr s :: l' => ws ← strings_of l'; Ok (s :: ws)
  | _ :: _ => Raise TypeError
  end.

Definition join_tags (v : json) : result string :=
  items ← Py.iter v; ws ← strings_of items; Ok (Str.join ", " ws).

(** The score of a paper as both loops read it:
    [paper.get('critic_rank', 3.0)]. *)
Definition score_of (p : paper) : float := default 3.0%float (critic_rank p).

(** ['critic_evaluation' in paper] *)
Definition has_eval (p : paper) : bool :=
  match critic_evaluation p with Some _ => true | None => false end.

(** Lines 435-443: the prefix and the colour of a table-of-contents
    entry. *)
Definition toc_prefix (score : float) : string * string :=
  if (4.5 <=? score)%float then (STAR +:+ STAR +:+ " ", "darkgreen")
  else if (4.0 <=? score)%float then (STAR +:+ " ", "darkgreen")
  else ("", "darkgrey").

(** Lines 431-451: one entry of the table of contents. *)
Definition toc_entry (i : nat) (p : paper) : list piece :=
  let score := score_of p in
  let (prefix, score_color) := toc_prefix score in
  let clean_title := Str.replace "]" "" (Str.replace "[" "" (Str.take 80 (title p))) in
  [Lit "<a href='#paper"; Num i; Lit "' color='black'>"; Num i; Lit ". ";
   Lit prefix; Lit "<b>"; Lit clean_title; Lit "...</b></a>"]
  ++ (if has_eval p
      then [Lit " <font color='"; Lit score_color; Lit "'>["; Fixed 1 score;
            Lit "]</font>"]
      else []).

(** Lines 462-470: the title line of a bibliography entry, the anchor
    first. *)
Definition title_text (i : nat) (p : paper) : list piece :=
  let score := score_of p in
  let anchor := [Lit "<a name='paper"; Num i; Lit "'/>"] in
  if has_eval p && (4.5 <=? score)%float
  then anchor ++ [Lit (STAR +:+ STAR +:+ " "); Lit "<b>"; Lit "EXCEPTIONAL: ";
                  Lit (title p); Lit "</b>"]
  else if has_eval p && (4.0 <=? score)%float
  then anchor ++ [Lit (STAR +:+ " "); Lit "<b>"; Lit "HIGHLY RATED: ";
                  Lit (title p); Lit "</b>"]
  else anchor ++ [Lit "<b>"; Num i; Lit ". "; Lit (title p); Lit "</b>"].

(** Lines 475-478. *)
Definition meta_info (p : paper) : list piece :=
  [Lit "<i>"; Lit (source p); Lit " | "; Val (pub_year p); Lit " | "; Lit (venue p)]
  ++ (if decide (0 < citation_count p)
      then [Lit " | Citations: "; NumZ (citation_count p)] else [])
  ++ [Lit "</i>"].

(** Lines 495-506: the colour and the label of the assessment line. *)
Definition score_label (overall : float) : string * string :=
  if (4.5 <=? overall)%float then ("darkgreen", "EXCEPTIONAL")
  else if (4.0 <=? overall)%float then ("green", "EXCELLENT")
  else if (3.5 <=? overall)%float then ("darkorange", "GOOD")
  else ("darkgrey", "ACCEPTABLE").

(** Lines 486-517: the assessment paragraph of a paper that has an
    evaluation.  The default of [eval_data.get('overall_score', ...)] is
    computed before the call, whatever the dictionary holds. *)
Definition eval_text (eval_data : evaluation) : result (list piece) :=
  a ← Py.mul_float (relevance_score eval_data) 0.4;
  b ← Py.mul_float (methodological_soundness eval_data) 0.3;
  c ← Py.mul_float (impact_score eval_data) 0.3;
  let overall := overall_score eval_data in
  let (score_color, label) := score_label overall in
  rel ← fixed 1 (relevance_score eval_data);
  met ← fixed 1 (methodological_soundness eval_data);
  imp ← fixed 1 (impact_score eval_data);
  let text :=
    [Lit "<b><font color='"; Lit score_color; Lit "'>● Critic Assessment [";
     Lit label; Lit ": "; Fixed 2 overall; Lit "/5.0]</font></b><br/>";
     Lit "Relevance: "; rel; Lit " | Methodology: "; met; Lit " | Impact: "; imp;
     Lit "<br/><i>"; Val (rationale eval_data); Lit "</i>"] in
  if truthy (flags eval_data)
  then tags ← join_tags (flags eval_data);
       Ok (text ++ [Lit "<br/><b>Tags:</b> "; Lit tags])
  else Ok text.

(** Lines 457-521: one bibliography entry. *)
Definition bib_entry (i : nat) (p : paper) : result flowable :=
  let head :=
    [Paragraph (title_text i p) "BT"; Paragraph (meta_info p) "BM";
     Paragraph [Lit (truncate_abstract (abstract p) 100)] "BM"] in
  critic ←
    match critic_evaluation p with
    | Some eval_data =>
        text ← eval_text eval_data; Ok [Spacer 0.125; Paragraph text "CS"]
    | None => Ok []
    end;
  Ok (KeepTogether
        (head ++ critic ++ [Paragraph [Lit "URL: "; Lit (url p)] "U"; Spacer 0.65])).

(** [for i, paper in enumerate(papers, i)] with a body that may raise. *)
Fixpoint bib_entries (i : nat) (papers : list paper) : result (list flowable) :=
  match papers with
  | [] => Ok []
  | p :: rest => e ← bib_entry i p; es ← bib_entries (S i) rest; Ok (e :: es)
  end.

Fixpoint toc_entries (i : nat) (papers : list paper) : list flowable :=
  match papers with
  | [] => []
  | p :: rest => Paragraph (toc_entry i p) "TOC" :: toc_entries (S i) rest
  end.

(** Lines 411-521: the story. *)
Definition story (executive_summary subject : string) (papers : list paper)
    (excluded : nat) : result (list flowable) :=
  let front :=
    [Paragraph [Lit "Research Report: "; Lit subject] "T";
     Paragraph [Lit "Date: "; Today "%B %d, %Y"] "BM";
     Spacer 0.75;
     Paragraph [Lit "Executive Summary"] "H";
     Paragraph [Lit (Str.replace (Str.byte 10) "<br/>" executive_summary)] "S"]
    ++ (if decide (0 < excluded)%nat
        then [Spacer 0.5;
              Paragraph [Lit "<b>Quality Control:</b> "; Num (length papers);
                         Lit " papers included, "; Num excluded;
                         Lit " excluded after critic evaluation."] "BM"]
        else [])
    ++ [PageBreak; Paragraph [Lit "Table of Contents"] "H"]
    ++ toc_entries 1 papers
    ++ [PageBreak;
        Paragraph [Lit "Detailed Bibliography ("; Num (length papers); Lit " Sources)"] "H"] in
  bib ← bib_entries 1 papers;
  Ok (front ++ bib).

(** [generate_report(executive_summary, subject)]: the state afterwards,
    and the string returned or the exception that escapes.  The drawing of
    the pages by [doc.build] is ReportLab's and is not modelled: the file
    holds the story. *)
Definition generate_report (executive_summary subject : string) (st : state)
  : state * result string :=
  match COLLECTED_PAPERS st with
  | [] => (st, Ok "Error: Collection is empty.")
  | _ =>
      let c := compose st in
      let st' := set_objects (heap c) st in
      match story executive_summary subject (heap c <$> included_papers c)
                  (excluded_count c) with
      | Raise e => (st', Raise e)
      | Ok s =>
          (write_file "executive_summary.pdf" (PDFDocument s) st',
           Ok (summary_msg "PDF Generated: executive_summary.pdf ("
                 (length (included_papers c)) (excluded_count c)))
      end
  end.

End PDFReportTool.

(** ** HTMLReportTool *)

Module HTMLReportTool.
Import Composer.

Section generate_html_report.

(** [self._generate_html(subject, executive_summary, papers,
    excluded_count)]: the markup of the page, or the exception a
    formatting step inside it raises.  No property below reads into the
    page, so it is taken as it is. *)
Variable _generate_html : string -> string -> list paper -> nat -> result string.

(** [generate_html_report(executive_summary, subject)] *)
Definition generate_html_report (executive_summary subject : string) (st : state)
  : state * result string :=
  match COLLECTED_PAPERS st with
  | [] => (st, Ok "Error: Collection is empty.")
  | _ =>
      let c := compose st in
      let st' := set_objects (heap c) st in
      match _generate_html subject executive_summary
              (heap c <$> included_papers c) (excluded_count c) with
      | Raise e => (st', Raise e)
      | Ok html_content =>
          (write_file "executive_summary.html" (HTMLDocument html_content) st',
           Ok (summary_msg "HTML Generated: executive_summary.html ("
                 (length (included_papers c)) (excluded_count c)))
      end
  end.

End generate_html_report.

End HTMLReportTool.

(** ** More of my_tools.py: the inverted index, the reset, the arXiv search
    and the escaping of the HTML report *)

(** [word_positions.sort(key=lambda x: x[0])]: a stable sort into ascending
    order of the positions, written as the insertion of each pair before the
    first one that is not smaller. *)
Fixpoint insert_by_position (x : Z * string) (l : list (Z * string)) : list (Z * string) :=
  match l with
  | [] => [x]
  | y :: l' => if (y.1 <? x.1)%Z then y :: insert_by_position x l' else x :: l
  end.

Definition sort_by_position (l : list (Z * string)) : list (Z * string) :=
  foldr insert_by_position [] l.

(** The two nested loops of [reconstruct_abstract]: the pairs (position,
    word) in the order of the dictionary. *)
Definition word_positions (inverted_index : list (string * list Z)) : list (Z * string) :=
  flat_map (fun entry => (fun pos => (pos, entry.1)) <$> entry.2) inverted_index.

(** [reconstruct_abstract(inverted_index)]; [None] is a missing index. *)
Definition reconstruct_abstract (inverted_index : option (list (string * list Z))) : string :=
  match inverted_index with
  | None => NO_ABSTRACT
  | Some [] => NO_ABSTRACT
  | Some index => Str.join " " (snd <$> sort_by_position (word_positions index))
  end.

(** [clear_papers()]: the two globals are bound to an empty list and an empty
    dictionary. *)
Definition clear_papers (st : state) : state * string :=
  (State (objects st) [] ∅ (files st), "Library and evaluations cleared.").

(** [COLLECTED_PAPERS.append(paper_data)] for a dictionary just built: a new
    object, whose reference no entry of the collection holds. *)
Definition fresh_ref (st : state) : ref := S (max_list (COLLECTED_PAPERS st)).

Definition append_paper (paper_data : paper) (st : state) : state :=
  State (<[fresh_ref st := paper_data]> (objects st))
        (COLLECTED_PAPERS st ++ [fresh_ref st])
        (CRITIC_EVALUATIONS st) (files st).

(** One result of the arXiv client, with the attributes the tool reads. *)
Record arxiv_result : Type := ArxivResult {
  res_title : string;
  res_authors : list string;
  res_published_year : Z;
  res_summary : string;
  res_entry_id : string
}.

(** The string a search tool returns. *)
Inductive search_reply : Type :=
| Added (count : nat)
| SearchError (msg : string).

(** [s.split('/')[-1]]: what follows the last slash. *)
Fixpoint after_last_slash (s : string) : string :=
  match s with
  | EmptyString => EmptyString
  | String c s' =>
      if existsb (fun x => bool_decide (x = "/"%char)) (list_ascii_of_string s')
      then after_last_slash s'
      else if decide (c = "/"%char) then s' else s
  end.

Module ArXivTool.

Section search.

(* The two library calls of [clean_text]. *)
Variable get_text : string -> string.
Variable normalize_NFKD : string -> string.

(** The dictionary of lines 206-216. *)
Definition paper_data (res : arxiv_result) : paper :=
  Paper (res_title res) (res_authors res) (JInt (res_published_year res))
        (clean_text get_text normalize_NFKD (Some (res_summary res)))
        (res_entry_id res) "arXiv" 0 "arXiv Preprint"
        (after_last_slash (res_entry_id res)) None None None.

(** The loop of [search] over the results the client yields; the Boolean
    tells whether the loop was left by [break]. *)
Fixpoint search_loop (start_year end_year num_papers : Z) (results : list arxiv_result)
    (st : state) (count : nat) : state * nat * bool :=
  match results with
  | [] => (st, count, false)
  | res :: rest =>
      if decide (start_year ≤ res_published_year res ∧ res_published_year res ≤ end_year)
      then
        let st' := append_paper (paper_data res) st in
        if decide (num_papers ≤ Z.of_nat (S count)) then (st', S count, true)
        else search_loop start_year end_year num_papers rest st' (S count)
      else search_loop start_year end_year num_papers rest st count
  end.

(** [search(subject, start_year, end_year, num_papers)].  The client yields
    [results] and then either stops or raises [failure]; the exception is
    met only if the loop asks for a result beyond the listed ones. *)
Definition search (start_year end_year num_papers : Z) (results : list arxiv_result)
    (failure : option string) (st : state) : state * search_reply :=
  let '(st', count, broke) := search_loop start_year end_year num_papers results st 0 in
  match failure with
  | Some e => if broke then (st', Added count) else (st', SearchError e)
  | None => (st', Added count)
  end.

End search.

End ArXivTool.

(** [HTMLReportTool._escape_html(text)] *)
Definition _escape_html (text : string) : string :=
  if decide (text = EmptyString) then EmptyString
  else Str.replace "'" "&#39;"
         (Str.replace (Str.byte 34) "&quot;"
            (Str.replace ">" "&gt;" (Str.replace "<" "&lt;" (Str.replace "&" "&amp;" text)))).




(** ** streamlit_app.py: the statistics of a run *)

Module Statistics.

(** The counts of the dictionary [stats] that [run_workflow] builds once the
    agents have run (lines 387-400).  Its three averages are sums of floats
    taken in the order of the dictionary and are not embedded. *)
Record stats : Type := Stats {
  total_collected : nat;
  total_evaluated : nat;
  high_rated : nat;
  excluded : nat
}.

(** [e['recommended_action'] == 'exclude'] *)
Definition is_exclude (v : json) : bool :=
  match v with
  | JStr s => bool_decide (s = "exclude")
  | _ => false
  end.

(** [sum(1 for e in evals if test(e))]: the number of entries of the ledger
    on which the test holds. *)
Definition count (test : evaluation -> bool) (ledger : gmap string evaluation) : nat :=
  size (filter (fun kv => test kv.2) ledger).

Definition statistics (st : state) : stats :=
  let total_evaluated := size (CRITIC_EVALUATIONS st) in
  let counted := bool_decide (0 < total_evaluated)%nat in
  Stats (length (COLLECTED_PAPERS st)) total_evaluated
        (if counted
         then count (fun e => (4.0 <=? overall_score e)%float) (CRITIC_EVALUATIONS st)
         else 0%nat)
        (if counted
         then count (fun e => is_exclude (recommended_action e)) (CRITIC_EVALUATIONS st)
         else 0%nat).

End Statistics.

(** * The vocabulary of the statements *)


(** What the ledger holds for an entry [d] that was ingested. *)
Definition stored_from (d : list (string * json)) (k : string) (ev : evaluation) : Prop :=
  (∃ t, Py.dict_get d "paper_title" (JStr "") = JStr t ∧ k = Str.strip (Str.lower t))
  ∧ relevance_score ev = Py.dict_get d "relevance_score" (JFloat 3.0)
  ∧ methodological_soundness ev = Py.dict_get d "methodological_soundness" (JFloat 3.0)
  ∧ impact_score ev = Py.dict_get d "impact_score" (JFloat 3.0)
  ∧ ∃ a b c,
      Py.mul_float (relevance_score ev) 0.4 = Ok a
      ∧ Py.mul_float (methodological_soundness ev) 0.3 = Ok b
      ∧ Py.mul_float (impact_score ev) 0.3 = Ok c
      ∧ overall_score ev = (a + b + c)%float.


(** The process before any search: no paper, no evaluation, no file. *)
Definition empty_state : state :=
  State (fun _ => Paper "" [] JNull "" "" "" 0 "" "" None None None) [] ∅ ∅.

(** The exception the body of the loop of [evaluate_papers] raises on an
    item, if any (the ledger has no part in it). *)
Definition item_error (item : json) : option exn :=
  match CriticTool.evaluate_item item ∅ with
  | Ok _ => None
  | Raise e => Some e
  end.

(** The position of the first item of a payload on which the body raises,
    and the exception. *)
Fixpoint first_malformed (items : list json) : option (nat * exn) :=
  match items with
  | [] => None
  | item :: rest =>
      match item_error item with
      | Some e => Some (0%nat, e)
      | None =>
          match first_malformed rest with
          | Some (n, e) => Some (S n, e)
          | None => None
          end
      end
  end.

(** The ledger once the items have been ingested one after the other. *)
Definition ingest (items : list json) (ledger : gmap string evaluation)
  : gmap string evaluation :=
  foldl (fun l item =>
           match CriticTool.evaluate_item item l with
           | Ok l' => l'
           | Raise _ => l
           end) ledger items.

(** A payload entry with a title and nothing else. *)
Definition titled_entry (t : string) : json := JObj [("paper_title", JStr t)].

(** A paper whose normalised title cannot tell it from another. *)
Definition untitled (p : paper) : Prop :=
  CriticTool.clean_title p = EmptyString ∨ CriticTool.clean_title p = "untitled".

#[global] Instance untitled_dec p : Decision (untitled p).
Proof. unfold untitled. apply _. Defined.


(** The first loop of the report generators without its accumulator and
    without the updates: the references it keeps. *)
Fixpoint unique_from (h : ref -> paper) (seen : gset string) (papers : list ref)
  : list ref :=
  match papers with
  | [] => []
  | p :: rest =>
      let k := Composer.key (h p) in
      if decide (k ∈ seen) then unique_from h seen rest
      else p :: unique_from h ({[k]} ∪ seen) rest
  end.


(** The rank by which the report generators sort. *)
Definition rank (p : paper) : float := default 0%float (critic_rank p).




(** Example data. *)
Definition example_paper (t : string) (cites : Z) : paper :=
  Paper t ["A. Author"; "B. Author"; "C. Author"; "D. Author"] (JInt 2024)
        "An abstract." "https://example.org/1" "arXiv" cites "arXiv Preprint" "2401.00001"
        None None None.

Definition example_evaluation (score : float) (action : string) : evaluation :=
  Evaluation (JFloat score) (JFloat score) (JFloat score) (JBool false) (JList [])
             (JStr action) (JStr "") score.

(** Three papers whose ranks are 3.0, 4.8 and 4.2, the last one marked
    "exclude". *)
Definition three_papers : state :=
  State (fun r => match r with
                  | 0%nat => example_paper "Alpha" 10
                  | 1%nat => example_paper "Beta" 20
                  | _ => example_paper "Gamma" 30
                  end)
        [0; 1; 2]%nat
        (<["alpha" := example_evaluation 3.0 "include"]>
           (<["beta" := example_evaluation 4.8 "include"]>
              (<["gamma" := example_evaluation 4.2 "exclude"]> ∅)))
        ∅.


(** A paper the critic asked to leave out. *)
Definition excluded (p : paper) : Prop := critic_action p = Some (JStr "exclude").

#[global] Instance excluded_dec p : Decision (excluded p).
Proof.
  unfold excluded. destruct (critic_action p) as [[| | | |s| |]|];
    try (right; discriminate).
  destruct (decide (s = "exclude")) as [->|]; [by left|right; congruence].
Defined.

(** The nine keys a search tool gives a paper. *)
Definition base_fields (p : paper) :=
  (title p, authors p, pub_year p, abstract p, url p, source p, citation_count p,
   venue p, paper_id p).

(** What a report generator may change from [st] to [st']: the three critic
    keys of the papers of the collection, and the file [out]. *)
Definition report_frame (out : string) (st st' : state) : Prop :=
  COLLECTED_PAPERS st' = COLLECTED_PAPERS st
  ∧ CRITIC_EVALUATIONS st' = CRITIC_EVALUATIONS st
  ∧ (∀ r, base_fields (objects st' r) = base_fields (objects st r))
  ∧ (∀ r, r ∉ COLLECTED_PAPERS st → objects st' r = objects st r)
  ∧ (∀ name, name ≠ out → files st' !! name = files st !! name).

(** A page generator for the examples. *)
Definition blank_page : string → string → list paper → nat → result string :=
  fun _ _ _ _ => Ok "<!DOCTYPE html>".

(** The star marker of a rank: two stars from 4.5, one star from 4.0. *)
Definition star_tier (score : float) : string :=
  if (4.5 <=? score)%float then "★★ "
  else if (4.0 <=? score)%float then "★ "
  else "".

(** The four labels of a score. *)
Definition four_bucket (score : float) : string :=
  if (4.5 <=? score)%float then "EXCEPTIONAL"
  else if (4.0 <=? score)%float then "EXCELLENT"
  else if (3.5 <=? score)%float then "GOOD"
  else "ACCEPTABLE".

(** Two papers of ranks 4.2 and 3.7, both included. *)
Definition two_rated : state :=
  State (fun r => match r with
                  | 0%nat => example_paper "Alpha" 10
                  | _ => example_paper "Beta" 20
                  end)
        [0; 1]%nat
        (<["alpha" := example_evaluation 4.2 "include"]>
           (<["beta" := example_evaluation 3.7 "include"]> ∅))
        ∅.

(** A word: a non-empty string without whitespace. *)
Fixpoint no_space (s : string) : bool :=
  match s with
  | EmptyString => true
  | String c s' => negb (Str.isspace c) && no_space s'
  end.

Definition is_word (w : string) : Prop := w ≠ EmptyString ∧ no_space w = true.

(** The object [v] has a member named [k]. *)
Definition has_field (v : json) (k : string) : Prop :=
  ∃ d, v = JObj d ∧ k ∈ d.*1.

(** A text in which the three markup characters are escaped: no angle
    bracket, and every ampersand opens one of the entities [&amp;], [&lt;],
    [&gt;]. *)
Fixpoint well_escaped (s : string) : bool :=
  match s with
  | EmptyString => true
  | String c s' =>
      if decide (c = "<"%char ∨ c = ">"%char) then false
      else if decide (c = "&"%char)
      then (Str.starts_with "amp;" s' || Str.starts_with "lt;" s'
            || Str.starts_with "gt;" s') && well_escaped s'
      else well_escaped s'
  end.

(** [escape], one character at a time. *)
Fixpoint escape_chars (s : string) : string :=
  match s with
  | EmptyString => EmptyString
  | String c s' =>
      (if decide (c = "&"%char) then "&amp;"
       else if decide (c = ">"%char) then "&gt;"
       else if decide (c = "<"%char) then "&lt;"
       else String c EmptyString) +:+ escape_chars s'
  end.

(** The replacement of one character [c] by [new]. *)
Fixpoint subst_char (c : ascii) (new s : string) : string :=
  match s with
  | EmptyString => EmptyString
  | String x s' =>
      if decide (c = x) then new +:+ subst_char c new s'
      else String x (subst_char c new s')
  end.

(** A stand-in for the text extraction of the HTML parser in the examples:
    the characters of a document that lie outside its tags.  On a document
    made of tags, such as an empty element, this is the empty text the
    parser returns. *)
Fixpoint text_outside_tags (inside : bool) (s : string) : string :=
  match s with
  | EmptyString => EmptyString
  | String c s' =>
      if inside
      then text_outside_tags (negb (bool_decide (c = ">"%char))) s'
      else if decide (c = "<"%char) then text_outside_tags true s'
      else String c (text_outside_tags false s')
  end.



(** * The vocabulary of the further statements *)

(** The words of a text with their positions, counted from 0: what an
    inverted index records. *)
Definition numbered (ws : list string) : list (Z * string) :=
  imap (fun i w => (Z.of_nat i, w)) ws.

(** [_escape_html], one character at a time. *)
Fixpoint escape_html_chars (s : string) : string :=
  match s with
  | EmptyString => EmptyString
  | String c s' =>
      (if decide (c = "&"%char) then "&amp;"
       else if decide (c = "<"%char) then "&lt;"
       else if decide (c = ">"%char) then "&gt;"
       else if decide (c = ascii_of_N 34) then "&quot;"
       else if decide (c = "'"%char) then "&#39;"
       else String c EmptyString) +:+ escape_html_chars s'
  end.

(** A text that can stand in an element or in a quoted attribute value of an
    HTML page: it holds no angle bracket and no quote, and every ampersand
    opens one of the five entities of [_escape_html]. *)
Fixpoint inert_in_html (s : string) : bool :=
  match s with
  | EmptyString => true
  | String c s' =>
      if decide (c = "<"%char ∨ c = ">"%char ∨ c = ascii_of_N 34 ∨ c = "'"%char) then false
      else if decide (c = "&"%char)
      then (Str.starts_with "amp;" s' || Str.starts_with "lt;" s'
            || Str.starts_with "gt;" s' || Str.starts_with "quot;" s'
            || Str.starts_with "#39;" s') && inert_in_html s'
      else inert_in_html s'
  end.

(** What a browser shows for a text: the five entities read back, from the
    left.  [skip] counts the characters of an entity still to be passed
    over. *)
Fixpoint shown_from (skip : nat) (s : string) : string :=
  match s with
  | EmptyString => EmptyString
  | String c s' =>
      match skip with
      | S k => shown_from k s'
      | O =>
          if Str.starts_with "&amp;" s then String "&" (shown_from 4 s')
          else if Str.starts_with "&lt;" s then String "<" (shown_from 3 s')
          else if Str.starts_with "&gt;" s then String ">" (shown_from 3 s')
          else if Str.starts_with "&quot;" s then String (ascii_of_N 34) (shown_from 5 s')
          else if Str.starts_with "&#39;" s then String "'" (shown_from 4 s')
          else String c (shown_from O s')
      end
  end.

Definition shown (s : string) : string := shown_from O s.

(** The state after the papers [ps] have been appended to the collection one
    after the other. *)
Definition append_all (ps : list paper) (st : state) : state :=
  foldl (fun s p => append_paper p s) st ps.

(** Two papers between which the sort key of the reports does not decide:
    equal ranks and equal citation counts. *)
Definition tied (p q : paper) : Prop :=
  (rank p =? rank q)%float = true ∧ citation_count p = citation_count q.

#[global] Instance tied_dec p q : Decision (tied p q).
Proof. unfold tied. apply _. Defined.




(** A text without a slash. *)
Fixpoint no_slash (s : string) : bool :=
  match s with
  | EmptyString => true
  | String c s' => negb (bool_decide (c = "/"%char)) && no_slash s'
  end.

(** The text [old] occurs nowhere in [s]. *)
Fixpoint absent (old s : string) : bool :=
  match s with
  | EmptyString => true
  | String c s' => negb (Str.starts_with old s) && absent old s'
  end.

(** An ASCII text, and a text made of bytes of non-ASCII characters only. *)
Fixpoint is_ascii (s : string) : bool :=
  match s with
  | EmptyString => true
  | String c s' => (Str.ord c <? 128)%N && is_ascii s'
  end.

Fixpoint non_ascii (s : string) : bool :=
  match s with
  | EmptyString => true
  | String c s' => (128 <=? Str.ord c)%N && non_ascii s'
  end.

(** * Properties *)

(** ** CriticTool.evaluate_papers *)

Section evaluate_papers.
Import CriticTool.

Lemma evaluate_item_Ok item ledger ledger' :
  evaluate_item item ledger = Ok ledger' →
  ∃ d k ev, item = JObj d ∧ stored_from d k ev ∧ ledger' = <[k := ev]> ledger.
Proof.
  unfold evaluate_item, composite.
  destruct item as [| | | | |l|d]; try discriminate. cbn.
  destruct (Py.dict_get d "paper_title" (JStr "")) as [| | | |t| |] eqn:Ht;
    try discriminate. cbn.
  destruct (Py.mul_float (Py.dict_get d "relevance_score" (JFloat 3)) 0.4)
    as [a|] eqn:Ha; try discriminate. cbn.
  destruct (Py.mul_float (Py.dict_get d "methodological_soundness" (JFloat 3)) 0.3)
    as [b|] eqn:Hb; try discriminate. cbn.
  destruct (Py.mul_float (Py.dict_get d "impact_score" (JFloat 3)) 0.3)
    as [c|] eqn:Hc; try discriminate. cbn.
  intros [= <-]. eexists d, _, _. split; [done|]. split; [|done].
  repeat split; cbn; eauto 10.
Qed.



End evaluate_papers.




Section evaluate_papers_errors.
Import CriticTool.

Lemma evaluate_item_error item ledger :
  match evaluate_item item ledger with
  | Ok _ => item_error item = None
  | Raise e => item_error item = Some e
  end.
Proof.
  unfold item_error, evaluate_item, composite.
  destruct item as [| | | | |l|d]; try done. cbn.
  destruct (Py.dict_get d "paper_title" (JStr "")) as [| | | |t| |]; try done. cbn.
  destruct (Py.mul_float (Py.dict_get d "relevance_score" (JFloat 3)) 0.4); try done. cbn.
  destruct (Py.mul_float (Py.dict_get d "methodological_soundness" (JFloat 3)) 0.3);
    try done. cbn.
  destruct (Py.mul_float (Py.dict_get d "impact_score" (JFloat 3)) 0.3); done.
Qed.

Lemma evaluate_loop_outcome items ledger count :
  evaluate_loop items ledger count =
  match first_malformed items with
  | None => (ingest items ledger, CriticSuccess (count + length items))
  | Some (n, e) => (ingest (take n items) ledger, CriticError e)
  end.
Proof.
  revert ledger count. induction items as [|item rest IH]; intros ledger count; cbn.
  - by rewrite Nat.add_0_r.
  - pose proof (evaluate_item_error item ledger) as H.
    destruct (evaluate_item item ledger) as [ledger'|e] eqn:Hitem; rewrite H; [|done].
    rewrite IH. destruct (first_malformed rest) as [[n e]|]; cbn; rewrite ?Hitem; [done|].
    by rewrite Nat.add_succ_r.
Qed.

Lemma ingest_keeps items ledger k :
  is_Some (ledger !! k) → is_Some (ingest items ledger !! k).
Proof.
  revert ledger. induction items as [|y rest IH]; intros l Hl; [done|].
  cbn. apply IH. destruct (evaluate_item y l) as [l'|] eqn:Hy; [|done].
  apply evaluate_item_Ok in Hy as (d & k' & ev & -> & _ & ->).
  destruct (decide (k' = k)) as [->|].
  - rewrite lookup_insert_eq; eauto.
  - by rewrite lookup_insert_ne.
Qed.

Lemma ingest_all_stored items ledger :
  first_malformed items = None →
  ∀ item, item ∈ items →
    ∃ d t, item = JObj d ∧ Py.dict_get d "paper_title" (JStr "") = JStr t
           ∧ is_Some (ingest items ledger !! Str.strip (Str.lower t)).
Proof.
  revert ledger. induction items as [|x rest IH]; intros ledger Hwf item Hin.
  { by apply elem_of_nil in Hin. }
  cbn in Hwf. pose proof (evaluate_item_error x ledger) as Hx.
  destruct (item_error x) eqn:Hex; [done|].
  destruct (first_malformed rest) as [[??]|] eqn:Hrest; [done|].
  destruct (evaluate_item x ledger) as [ledger'|] eqn:Hitem; [|done].
  cbn. rewrite Hitem.
  apply elem_of_cons in Hin as [->|Hin]; [|by apply IH].
  apply evaluate_item_Ok in Hitem as (d & k & ev & -> & ((t & Ht & ->) & _) & ->).
  exists d, t. split; [done|]. split; [done|].
  apply ingest_keeps. rewrite lookup_insert_eq. eauto.
Qed.

End evaluate_papers_errors.

(** C2, as the code has it.  A payload that is not valid JSON, or whose value
    cannot be iterated, leaves the ledger as it was and yields an error
    reply.  Otherwise the items are ingested in order up to the first one on
    which the body of the loop raises: the items before it are in the
    ledger, the items after it are not looked at, and the reply is the
    error.  When no item raises, every item is ingested and the reply counts
    them all. *)
Theorem evaluate_papers_outcome evaluations st :
  CriticTool.evaluate_papers evaluations st =
    match evaluations with
    | DecodeError msg => (st, CriticInvalidJSON msg)
    | Decoded v =>
        match Py.iter v with
        | Raise e => (st, CriticError e)
        | Ok items =>
            match first_malformed items with
            | Some (n, e) =>
                (set_evaluations (ingest (take n items) (CRITIC_EVALUATIONS st)) st,
                 CriticError e)
            | None =>
                (set_evaluations (ingest items (CRITIC_EVALUATIONS st)) st,
                 CriticSuccess (length items))
            end
        end
    end
  ∧ ∀ items, evaluations = Decoded (JList items) → first_malformed items = None →
      ∀ item, item ∈ items →
        ∃ d t, item = JObj d ∧ Py.dict_get d "paper_title" (JStr "") = JStr t
               ∧ is_Some (CRITIC_EVALUATIONS (CriticTool.evaluate_papers evaluations st).1
                            !! Str.strip (Str.lower t)).
Proof.
  assert (∀ items, CriticTool.evaluate_papers (Decoded (JList items)) st =
            match first_malformed items with
            | Some (n, e) =>
                (set_evaluations (ingest (take n items) (CRITIC_EVALUATIONS st)) st,
                 CriticError e)
            | None =>
                (set_evaluations (ingest items (CRITIC_EVALUATIONS st)) st,
                 CriticSuccess (length items))
            end) as Hlist.
  { intros items. unfold CriticTool.evaluate_papers. cbn.
    rewrite evaluate_loop_outcome. by destruct (first_malformed items) as [[??]|]. }
  split.
  - unfold CriticTool.evaluate_papers. destruct evaluations as [msg|v]; [done|].
    destruct (Py.iter v) as [items|e]; [|done].
    rewrite evaluate_loop_outcome. by destruct (first_malformed items) as [[??]|].
  - intros items -> Hwf item Hin. rewrite Hlist, Hwf. cbn.
    by apply ingest_all_stored.
Qed.

(** C2, as the claim has it, fails: the second entry of this payload is
    malformed; the first entry is ingested, the third, although well formed,
    is not, and the reply is an error. *)
Lemma evaluate_papers_malformed_entry_aborts :
  let r := CriticTool.evaluate_papers
             (Decoded (JList [titled_entry "a"; JInt 5; titled_entry "b"])) empty_state in
  r.2 = CriticError AttributeError
  ∧ is_Some (CRITIC_EVALUATIONS r.1 !! "a")
  ∧ CRITIC_EVALUATIONS r.1 !! "b" = None
  ∧ item_error (titled_entry "b") = None.
Proof. vm_compute. repeat split; eauto. Qed.

(** On the payload above the ledger is the one the first entry alone leaves,
    and the reply is the error of the second. *)
Lemma evaluate_papers_outcome_witness :
  CriticTool.evaluate_papers
    (Decoded (JList [titled_entry "a"; JInt 5; titled_entry "b"])) empty_state
  = (set_evaluations (ingest [titled_entry "a"] ∅) empty_state, CriticError AttributeError).
Proof.
  exact (proj1 (evaluate_papers_outcome
                  (Decoded (JList [titled_entry "a"; JInt 5; titled_entry "b"]))
                  empty_state)).
Defined.

(** ** CriticTool.deduplicate_collection *)

Section deduplicate_collection.
Import CriticTool.
Variable h : ref -> paper.

Local Abbreviation T r := (clean_title (h r)).









End deduplicate_collection.




(** ** The order of floats *)

Section float_order.

#[local] Ltac cmp_cases :=
  repeat match goal with
  | H : context [Z.compare ?a ?b] |- _ => destruct (Z.compare_spec a b)
  | |- context [Z.compare ?a ?b] => destruct (Z.compare_spec a b)
  | H : context [Pos.compare_cont Eq ?a ?b] |- _ =>
      change (Pos.compare_cont Eq a b) with (Pos.compare a b) in *;
      destruct (Pos.compare_spec a b)
  | |- context [Pos.compare_cont Eq ?a ?b] =>
      change (Pos.compare_cont Eq a b) with (Pos.compare a b) in *;
      destruct (Pos.compare_spec a b)
  end.

Lemma SFcompare_antisym x y c :
  SFcompare x y = Some c → SFcompare y x = Some (CompOpp c).
Proof.
  destruct x as [[]|[]| |[] mx ex], y as [[]|[]| |[] my ey]; simpl; intros H;
    try discriminate; try (injection H as <-; reflexivity).
  all: injection H as <-; f_equal; cmp_cases; simpl; try reflexivity; try lia.
Qed.

Lemma SFcompare_trans x y z c :
  SFcompare x y = Some c → SFcompare y z = Some c → SFcompare x z = Some c.
Proof.
  destruct x as [[]|[]| |[] mx ex], y as [[]|[]| |[] my ey], z as [[]|[]| |[] mz ez];
    simpl; intros H1 H2; try discriminate; try congruence.
  all: injection H1 as <-; injection H2 as H2; f_equal; revert H2; cmp_cases; simpl;
    intros; try congruence; try lia.
Qed.

Lemma SFcompare_eq_l x y z c :
  SFcompare x y = Some Eq → SFcompare y z = Some c → SFcompare x z = Some c.
Proof.
  destruct x as [[]|[]| |[] mx ex], y as [[]|[]| |[] my ey], z as [[]|[]| |[] mz ez];
    simpl; intros H1 H2; try discriminate; try congruence.
  all: injection H1 as H1; injection H2 as <-; f_equal; revert H1; cmp_cases; simpl;
    intros; try congruence; try lia.
Qed.

Lemma SFcompare_eq_r x y z c :
  SFcompare x y = Some c → SFcompare y z = Some Eq → SFcompare x z = Some c.
Proof.
  intros H1%SFcompare_antisym H2%SFcompare_antisym.
  pose proof (SFcompare_eq_l _ _ _ _ H2 H1) as H%SFcompare_antisym.
  by rewrite CompOpp_involutive in H.
Qed.



End float_order.

(** ** The composer: the sort *)

Section sort_reverse.
Import Composer.




Variable h : ref → paper.

Local Abbreviation K r := (sort_key (h r)).
Local Abbreviation above x y := (key_lt (K x) (K y) = false).

Lemma insert_desc_perm x l : insert_desc h x l ≡ₚ x :: l.
Proof.
  induction l as [|y l IH]; cbn; [done|].
  destruct (key_lt (K x) (K y)); [|done].
  rewrite IH. apply Permutation_swap.
Qed.

Lemma sort_reverse_perm l : sort_reverse h l ≡ₚ l.
Proof.
  unfold sort_reverse. induction l as [|x l IH]; cbn; [done|].
  by rewrite insert_desc_perm, IH.
Qed.



End sort_reverse.

(** ** The composer: the join *)

Section join_loop.
Import Composer.

Lemma attach_title ledger k p : title (attach ledger k p) = title p.
Proof. unfold attach. by destruct (ledger !! k). Qed.

Lemma unique_from_ext h1 h2 seen papers :
  (∀ r, key (h1 r) = key (h2 r)) → unique_from h1 seen papers = unique_from h2 seen papers.
Proof.
  intros Hk. revert seen. induction papers as [|p rest IH]; intros seen; cbn; [done|].
  rewrite Hk. case_decide; by rewrite IH.
Qed.

Lemma unique_from_not_seen h seen papers r :
  r ∈ unique_from h seen papers → key (h r) ∉ seen.
Proof.
  revert seen. induction papers as [|p rest IH]; intros seen; cbn.
  { by intros ?%elem_of_nil. }
  case_decide; [apply IH|].
  intros [->|Hin]%elem_of_cons; [done|]. apply IH in Hin. set_solver.
Qed.

Lemma unique_from_sublist h seen papers : sublist (unique_from h seen papers) papers.
Proof.
  revert seen. induction papers as [|p rest IH]; intros seen; cbn; [constructor|].
  case_decide; by constructor.
Qed.

Lemma unique_from_NoDup h seen papers :
  NoDup ((fun r => key (h r)) <$> unique_from h seen papers).
Proof.
  revert seen. induction papers as [|p rest IH]; intros seen; cbn; [constructor|].
  case_decide; [apply IH|]. cbn. constructor; [|apply IH].
  intros (r & Hr & Hin%unique_from_not_seen)%list_elem_of_fmap. set_solver.
Qed.


(** The loop keeps the references of [unique_from], and updates exactly the
    objects they refer to, each one once. *)
Lemma join_loop_spec ledger papers h seen acc :
  ∃ h', join_loop ledger papers h seen acc = (h', acc ++ unique_from h seen papers)
        ∧ ∀ r, h' r = if decide (r ∈ unique_from h seen papers)
                      then attach ledger (key (h r)) (h r) else h r.
Proof.
  revert h seen acc. induction papers as [|p rest IH]; intros h seen acc; cbn.
  { exists h. split; [by rewrite app_nil_r|]. intros r.
    by rewrite decide_False by apply not_elem_of_nil. }
  case_decide as Hseen; [apply IH|].
  set (h1 := <[p:=attach ledger (key (h p)) (h p)]> h).
  assert (∀ r, key (h1 r) = key (h r)) as Hkey.
  { intros r. unfold h1, key. destruct (decide (r = p)) as [->|].
    - by rewrite fn_lookup_insert, attach_title.
    - by rewrite fn_lookup_insert_ne. }
  destruct (IH h1 ({[key (h p)]} ∪ seen) (acc ++ [p])) as (h' & Heq & Hh').
  exists h'. rewrite Heq, (unique_from_ext h1 h) by done.
  split; [by rewrite <-(assoc_L (++))|].
  intros r. rewrite Hh', (unique_from_ext h1 h) by done.
  destruct (decide (r = p)) as [->|Hne].
  - rewrite decide_False, decide_True by (try left; intros ?%unique_from_not_seen; set_solver).
    unfold h1. by rewrite fn_lookup_insert.
  - unfold h1. rewrite Hkey, fn_lookup_insert_ne by done.
    repeat case_decide; try done; set_solver.
Qed.

End join_loop.

Section compose.
Import Composer.

(** [compose] in one piece. *)
Lemma compose_spec st :
  let u := unique_from (objects st) ∅ (COLLECTED_PAPERS st) in
  let c := compose st in
  (∀ r, heap c r = if decide (r ∈ u)
                   then attach (CRITIC_EVALUATIONS st) (key (objects st r)) (objects st r)
                   else objects st r)
  ∧ unique_papers c = sort_reverse (heap c) u
  ∧ included_papers c = filter (fun p => not_excluded (heap c p)) (unique_papers c)
  ∧ excluded_count c = (length (unique_papers c) - length (included_papers c))%nat.
Proof.
  cbn zeta. unfold compose.
  destruct (join_loop_spec (CRITIC_EVALUATIONS st) (COLLECTED_PAPERS st) (objects st) ∅ [])
    as (h' & -> & Hh'). cbn. done.
Qed.

End compose.

(** ** Titles up to case and padding *)

Section titles.

Lemma append_cons c s t : String c s +:+ t = String c (s +:+ t).
Proof. reflexivity. Qed.

Lemma append_nil_l s : EmptyString +:+ s = s.
Proof. reflexivity. Qed.

Lemma append_nil_r s : s +:+ EmptyString = s.
Proof. induction s as [|c s IH]; [done|]. by rewrite append_cons, IH. Qed.

Lemma append_assoc s t u : (s +:+ t) +:+ u = s +:+ t +:+ u.
Proof. induction s as [|c s IH]; [done|]. by rewrite !append_cons, IH. Qed.










End titles.

(** ** The composer: join and deduplication *)



(** ** The composer: sort and partition *)

Section compose_order.
Import Composer.


Lemma filter_not_excluded_length (h : ref → paper) l :
  (length l - length (filter (fun r => not_excluded (h r)) l))%nat
  = length (filter (fun r => excluded (h r)) l).
Proof.
  induction l as [|x l IH]; [done|].
  pose proof (length_filter (fun r => not_excluded (h r)) l).
  assert (not_excluded (h x) ↔ ¬ excluded (h x)) as Hx.
  { unfold not_excluded, excluded. destruct (critic_action (h x)) as [[| | | |s| |]|]; try done.
    rewrite bool_decide_spec. naive_solver. }
  destruct (decide (excluded (h x))) as [He|He].
  - rewrite (filter_cons_False (fun r => Is_true (not_excluded (h r))))
      by (rewrite Hx; tauto).
    rewrite (filter_cons_True (fun r => excluded (h r))) by done.
    cbn [length]. rewrite <-IH. lia.
  - rewrite (filter_cons_True (fun r => Is_true (not_excluded (h r)))) by (by rewrite Hx).
    rewrite (filter_cons_False (fun r => excluded (h r))) by done.
    cbn [length]. rewrite <-IH. lia.
Qed.

End compose_order.



(** ** The report generators: what they leave alone *)

Section report_frame.
Import Composer.

Lemma attach_base_fields ledger k p : base_fields (attach ledger k p) = base_fields p.
Proof. unfold attach. by destruct (ledger !! k). Qed.

Lemma compose_frame st out fs :
  (∀ name, name ≠ out → fs !! name = files st !! name) →
  report_frame out st
    (State (heap (compose st)) (COLLECTED_PAPERS st) (CRITIC_EVALUATIONS st) fs).
Proof.
  intros Hfs. destruct (compose_spec st) as (Hheap & _). cbn zeta in Hheap.
  unfold report_frame. cbn. split_and!; try done.
  - intros r. rewrite Hheap. case_decide; [apply attach_base_fields|done].
  - intros r Hr. rewrite Hheap, decide_False; [done|].
    intros Hin. apply Hr. eapply elem_of_sublist; [done|apply unique_from_sublist].
Qed.

Lemma report_frame_refl out st : report_frame out st st.
Proof. unfold report_frame. split_and!; done. Qed.

End report_frame.

(** C10.  Whatever a report generator does, by returning or by raising, the
    collection holds the same references in the same order, the ledger is
    the same, an object outside the collection is untouched, an object of it
    keeps its nine own fields, and no file but the report is written. *)
Theorem report_generators_frame _generate_html executive_summary subject st :
  report_frame "executive_summary.pdf" st
    (PDFReportTool.generate_report executive_summary subject st).1
  ∧ report_frame "executive_summary.html" st
      (HTMLReportTool.generate_html_report _generate_html executive_summary subject st).1.
Proof.
  unfold PDFReportTool.generate_report, HTMLReportTool.generate_html_report.
  destruct (COLLECTED_PAPERS st) eqn:Hp; [split; apply report_frame_refl|].
  split.
  - destruct (PDFReportTool.story _ _ _ _); unfold write_file, set_objects; cbn.
    + apply compose_frame. intros name Hne. by rewrite lookup_insert_ne.
    + by apply compose_frame.
  - destruct (_generate_html _ _ _ _); unfold write_file, set_objects; cbn.
    + apply compose_frame. intros name Hne. by rewrite lookup_insert_ne.
    + by apply compose_frame.
Qed.

(** C7.  On an empty collection both generators return the error string, and
    the state is the one they found. *)
Theorem report_generators_empty _generate_html executive_summary subject st :
  COLLECTED_PAPERS st = [] →
  PDFReportTool.generate_report executive_summary subject st
    = (st, Ok "Error: Collection is empty.")
  ∧ HTMLReportTool.generate_html_report _generate_html executive_summary subject st
    = (st, Ok "Error: Collection is empty.").
Proof.
  intros H. unfold PDFReportTool.generate_report, HTMLReportTool.generate_html_report.
  by rewrite H.
Qed.

Lemma report_generators_empty_witness :
  PDFReportTool.generate_report "A summary." "Deep learning" empty_state
    = (empty_state, Ok "Error: Collection is empty.")
  ∧ HTMLReportTool.generate_html_report blank_page "A summary." "Deep learning" empty_state
    = (empty_state, Ok "Error: Collection is empty.").
Proof. apply report_generators_empty. reflexivity. Defined.

(** Both generators on the three example papers. *)
Lemma report_generators_frame_witness :
  report_frame "executive_summary.pdf" three_papers
    (PDFReportTool.generate_report "A summary." "Deep learning" three_papers).1
  ∧ report_frame "executive_summary.html" three_papers
      (HTMLReportTool.generate_html_report blank_page "A summary." "Deep learning"
         three_papers).1.
Proof.
  exact (report_generators_frame blank_page "A summary." "Deep learning" three_papers).
Defined.

(** ** The PDF report: markers and labels *)

Section markers.
Import Composer PDFReportTool.

Lemma attach_has_eval ledger k p :
  has_eval (attach ledger k p) = true ∨ score_of (attach ledger k p) = 3.0%float.
Proof. unfold attach. destruct (ledger !! k); [by left|by right]. Qed.

Lemma included_attached st r :
  r ∈ included_papers (compose st) →
  heap (compose st) r
  = attach (CRITIC_EVALUATIONS st) (key (objects st r)) (objects st r).
Proof.
  destruct (compose_spec st) as (Hheap & Hu & Hinc & _). cbn zeta in *.
  rewrite Hinc. intros [_ Hr]%list_elem_of_filter.
  rewrite Hu, sort_reverse_perm in Hr. by rewrite Hheap, decide_True.
Qed.

Lemma score_label_four_bucket score : (score_label score).2 = four_bucket score.
Proof. unfold score_label, four_bucket. by repeat case_match. Qed.

Lemma eval_text_label eval_data text :
  eval_text eval_data = Ok text →
  ∃ color rest,
    text = [Lit "<b><font color='"; Lit color; Lit "'>● Critic Assessment [";
            Lit (four_bucket (overall_score eval_data)); Lit ": "] ++ rest.
Proof.
  unfold eval_text. rewrite <-score_label_four_bucket.
  destruct (score_label (overall_score eval_data)) as [color label]. cbn [snd].
  destruct (Py.mul_float (relevance_score eval_data) 0.4); [cbn|done].
  destruct (Py.mul_float (methodological_soundness eval_data) 0.3); [cbn|done].
  destruct (Py.mul_float (impact_score eval_data) 0.3); [cbn|done].
  destruct (fixed 1 (relevance_score eval_data)); [cbn|done].
  destruct (fixed 1 (methodological_soundness eval_data)); [cbn|done].
  destruct (fixed 1 (impact_score eval_data)); [cbn|done].
  destruct (truthy (flags eval_data)).
  - destruct (join_tags (flags eval_data)); cbn; [|done]. intros [= <-]. eauto.
  - intros [= <-]. eauto.
Qed.

End markers.

(** C9, as the code has it.  For an included paper of rank [s], entry number
    [i]: the table-of-contents entry carries two stars when [s >= 4.5], one
    star when [s >= 4.0] and none otherwise; the title line of the
    bibliography entry carries the same stars, followed by the label
    EXCEPTIONAL when [s >= 4.5] and HIGHLY RATED when [s >= 4.0], and below
    4.0 neither stars nor a label but the number of the entry.  The label of
    the four buckets (EXCEPTIONAL, EXCELLENT, GOOD, ACCEPTABLE) stands in
    the assessment line of a paper that has an evaluation, chosen by the
    composite score of that evaluation, which is the rank when the ledger
    holds the paper. *)
Theorem pdf_markers_and_labels st i r :
  r ∈ Composer.included_papers (Composer.compose st) →
  let p := Composer.heap (Composer.compose st) r in
  let s := PDFReportTool.score_of p in
  (∃ rest,
     PDFReportTool.toc_entry i p
     = [Lit "<a href='#paper"; Num i; Lit "' color='black'>"; Num i; Lit ". ";
        Lit (star_tier s); Lit "<b>"] ++ rest)
  ∧ PDFReportTool.title_text i p
    = [Lit "<a name='paper"; Num i; Lit "'/>"]
      ++ (if (4.0 <=? s)%float
          then [Lit (star_tier s); Lit "<b>";
                Lit (if (4.5 <=? s)%float then "EXCEPTIONAL: " else "HIGHLY RATED: ");
                Lit (title p); Lit "</b>"]
          else [Lit "<b>"; Num i; Lit ". "; Lit (title p); Lit "</b>"])
  ∧ (∀ eval_data text,
       critic_evaluation p = Some eval_data →
       PDFReportTool.eval_text eval_data = Ok text →
       ∃ color rest,
         text = [Lit "<b><font color='"; Lit color; Lit "'>● Critic Assessment [";
                 Lit (four_bucket (overall_score eval_data)); Lit ": "] ++ rest)
  ∧ (∀ eval_data,
       CRITIC_EVALUATIONS st !! Composer.key (objects st r) = Some eval_data →
       critic_evaluation p = Some eval_data ∧ s = overall_score eval_data).
Proof.
  intros Hr. cbn zeta. rewrite (included_attached st r Hr).
  set (p := Composer.attach _ _ _).
  split_and!.
  - unfold PDFReportTool.toc_entry, PDFReportTool.toc_prefix, star_tier.
    repeat case_match; simplify_eq; cbn; eauto.
  - unfold PDFReportTool.title_text, star_tier.
    destruct (attach_has_eval (CRITIC_EVALUATIONS st)
                (Composer.key (objects st r)) (objects st r)) as [H|H]; fold p in H;
      rewrite H.
    2: { change (4.5 <=? 3)%float with false. change (4 <=? 3)%float with false.
         by rewrite !andb_false_r. }
    cbn [andb].
    destruct (4.5 <=? PDFReportTool.score_of p)%float eqn:H45;
      destruct (4.0 <=? PDFReportTool.score_of p)%float eqn:H40; try done.
    (* 4.5 <= s but not 4.0 <= s: the order of floats forbids it *)
    exfalso. revert H45 H40. rewrite !leb_spec. unfold SFleb.
    destruct (SFcompare (Prim2SF 4.5) (Prim2SF (PDFReportTool.score_of p))) as [c1|] eqn:H1;
      [|done].
    destruct (SFcompare (Prim2SF 4) (Prim2SF 4.5)) as [c0|] eqn:H0; [|done].
    assert (c0 = Lt) as -> by (vm_compute in H0; congruence).
    destruct c1; try done; intros _.
    + by rewrite (SFcompare_eq_r _ _ _ _ H0 H1).
    + by rewrite (SFcompare_trans _ _ _ _ H0 H1).
  - intros eval_data text _. apply eval_text_label.
  - intros eval_data Hev. unfold p, Composer.attach. by rewrite Hev.
Qed.

Lemma pdf_markers_and_labels_witness :
  let p := Composer.heap (Composer.compose three_papers) 1%nat in
  PDFReportTool.title_text 1 p
  = [Lit "<a name='paper"; Num 1; Lit "'/>"; Lit "★★ "; Lit "<b>"; Lit "EXCEPTIONAL: ";
     Lit "Beta"; Lit "</b>"].
Proof.
  destruct (pdf_markers_and_labels three_papers 1%nat 1%nat) as (_ & H & _).
  - vm_compute. left.
  - exact H.
Defined.

(** C9, as the claim has it, fails on the label of the title line: a paper
    of rank 4.2 is labelled HIGHLY RATED there, not EXCELLENT, and a paper of
    rank 3.7 has no label, where the claim has GOOD. *)
Lemma pdf_title_line_label_differs :
  let c := Composer.compose two_rated in
  Composer.included_papers c = [0; 1]%nat
  ∧ PDFReportTool.score_of (Composer.heap c 0%nat) = 4.2%float
  ∧ four_bucket 4.2 = "EXCELLENT"
  ∧ PDFReportTool.title_text 1 (Composer.heap c 0%nat)
    = [Lit "<a name='paper"; Num 1; Lit "'/>"; Lit "★ "; Lit "<b>"; Lit "HIGHLY RATED: ";
       Lit "Alpha"; Lit "</b>"]
  ∧ PDFReportTool.score_of (Composer.heap c 1%nat) = 3.7%float
  ∧ four_bucket 3.7 = "GOOD"
  ∧ PDFReportTool.title_text 2 (Composer.heap c 1%nat)
    = [Lit "<a name='paper"; Num 2; Lit "'/>"; Lit "<b>"; Num 2; Lit ". "; Lit "Beta";
       Lit "</b>"].
Proof. cbn zeta. split_and!; reflexivity. Qed.

(** ** Words *)

Section words.


Lemma is_word_cons c w :
  Str.isspace c = false → no_space w = true → is_word (String c w).
Proof. intros Hc Hw. split; [done|]. cbn. by rewrite Hc, Hw. Qed.


(** A word followed by nothing, or by whitespace, is the first word of the
    text. *)
Lemma split_word_then w s :
  is_word w → (s = EmptyString ∨ ∃ c s', s = String c s' ∧ Str.isspace c = true) →
  Str.split (w +:+ s) = w :: Str.split s.
Proof.
  intros [Hne Hw] Hs. induction w as [|c w IH]; [done|].
  cbn in Hw. apply andb_prop in Hw as [Hc%negb_true_iff Hw].
  rewrite append_cons. cbn [Str.split]. rewrite Hc.
  destruct w as [|c2 w2].
  - rewrite append_nil_l. destruct Hs as [->|(c' & s' & -> & Hc')]; [done|].
    by rewrite Hc'.
  - rewrite append_cons. pose proof Hw as Hw'. cbn in Hw'.
    apply andb_prop in Hw' as [Hc2%negb_true_iff _]. rewrite Hc2.
    rewrite <-append_cons, IH by done. done.
Qed.

Lemma split_space c s : Str.isspace c = true → Str.split (String c s) = Str.split s.
Proof. intros H. cbn. by rewrite H. Qed.



End words.

(** ** CriticTool.get_papers_for_evaluation *)



(** ** clean_text *)

Section clean_text_facts.

Lemma replace_char c new s : Str.replace (String c EmptyString) new s = subst_char c new s.
Proof.
  unfold Str.replace. induction s as [|x s IH]; [done|].
  cbn. case_decide; by rewrite IH.
Qed.

Lemma subst_char_append c new a b :
  subst_char c new (a +:+ b) = subst_char c new a +:+ subst_char c new b.
Proof.
  induction a as [|x a IH]; [done|]. rewrite append_cons. cbn.
  case_decide; by rewrite IH, ?append_assoc.
Qed.

Lemma escape_escape_chars s : escape s = escape_chars s.
Proof.
  unfold escape. rewrite !replace_char.
  induction s as [|x s IH]; [done|]. cbn [subst_char escape_chars].
  destruct (decide (x = "&"%char)) as [->|Hamp].
  { rewrite decide_True, !subst_char_append, IH by done. done. }
  rewrite (decide_False (P := "&"%char = x)) by done. cbn [subst_char].
  destruct (decide (x = ">"%char)) as [->|Hgt].
  { rewrite decide_True, !subst_char_append, IH by done. done. }
  rewrite (decide_False (P := ">"%char = x)) by done. cbn [subst_char].
  destruct (decide (x = "<"%char)) as [->|Hlt].
  { rewrite decide_True, IH by done. done. }
  rewrite (decide_False (P := "<"%char = x)) by done. by rewrite IH.
Qed.

Lemma escape_chars_well_escaped s : well_escaped (escape_chars s) = true.
Proof.
  induction s as [|x s IH]; [done|]. cbn [escape_chars].
  repeat case_decide; subst; rewrite !append_cons, append_nil_l; cbn; try done.
  rewrite !decide_False by naive_solver. done.
Qed.

Lemma replace_empty old new s :
  new ≠ EmptyString → Str.replace old new s = EmptyString → s = EmptyString.
Proof.
  unfold Str.replace. intros Hnew. destruct s as [|c s]; [done|]. cbn [Str.replace_from].
  destruct (Str.starts_with old (String c s)); [|done].
  destruct new; done.
Qed.

Lemma replace_all_empty table s :
  Forall (fun r => r.2 ≠ EmptyString) table →
  replace_all table s = EmptyString → s = EmptyString.
Proof.
  unfold replace_all. intros Ht. revert s.
  induction Ht as [|[old new] table Hnew Ht IH]; intros s; cbn; [done|].
  intros H%IH. by eapply replace_empty.
Qed.

Lemma replace_all_of_empty table : replace_all table EmptyString = EmptyString.
Proof. unfold replace_all. induction table as [|[old new] table IH]; cbn; done. Qed.

Lemma replacements_nonempty : Forall (fun r => r.2 ≠ EmptyString) replacements.
Proof. unfold replacements. repeat constructor; done. Qed.

Lemma escape_empty s : escape s = EmptyString ↔ s = EmptyString.
Proof.
  split; [|by intros ->]. unfold escape.
  intros H%replace_empty%replace_empty%replace_empty; done.
Qed.

End clean_text_facts.

(** C8, as the code has it.  Whatever the HTML parser and the Unicode
    normaliser return, the result of [clean_text] holds no angle bracket and
    no ampersand but those of the entities that [escape] writes; a missing
    or empty text gives the placeholder; and for a text that is not empty
    the result is empty exactly when nothing is left of it after the parser
    and the normaliser. *)
Theorem clean_text_escaped get_text normalize_NFKD text :
  well_escaped (clean_text get_text normalize_NFKD text) = true
  ∧ (text = None ∨ text = Some EmptyString →
     clean_text get_text normalize_NFKD text = "No abstract available.")
  ∧ (∀ t, text = Some t → t ≠ EmptyString →
       (clean_text get_text normalize_NFKD text = EmptyString
        ↔ normalize_NFKD (get_text t) = EmptyString)).
Proof.
  split_and!.
  - destruct text as [[|c t]|]; try done. cbn [clean_text].
    rewrite escape_escape_chars. apply escape_chars_well_escaped.
  - by intros [->| ->].
  - intros t -> Ht. destruct t as [|c t]; [done|]. cbn [clean_text].
    rewrite escape_empty. split.
    + apply replace_all_empty, replacements_nonempty.
    + intros ->. apply replace_all_of_empty.
Qed.

Lemma clean_text_escaped_witness :
  clean_text (text_outside_tags false) (fun s => s) (Some "a <b>&</b> b") = "a &amp; b"
  ∧ (clean_text (text_outside_tags false) (fun s => s) (Some "<b></b>") = EmptyString
     ↔ text_outside_tags false "<b></b>" = EmptyString).
Proof.
  split; [reflexivity|].
  destruct (clean_text_escaped (text_outside_tags false) (fun s => s) (Some "<b></b>"))
    as (_ & _ & H).
  by apply H.
Defined.

(** C8, as the claim has it, fails: a text of visible characters that is
    all markup gives the empty string once the markup is taken out. *)
Lemma clean_text_markup_only_is_empty :
  Str.split "<b></b>" = ["<b></b>"]
  ∧ clean_text (text_outside_tags false) (fun s => s) (Some "<b></b>") = EmptyString.
Proof. split; reflexivity. Qed.

(** * Further properties *)

(** ** truncate_abstract *)

Section truncate_abstract_facts.






End truncate_abstract_facts.




(** ** reconstruct_abstract *)

Section reconstruct_abstract_facts.

Local Abbreviation by_position := (fun a b : Z * string => a.1 ≤ b.1).

Lemma insert_by_position_perm x l : insert_by_position x l ≡ₚ x :: l.
Proof.
  induction l as [|y l IH]; cbn; [done|].
  destruct (y.1 <? x.1); [|done]. rewrite IH. apply Permutation_swap.
Qed.

Lemma sort_by_position_perm l : sort_by_position l ≡ₚ l.
Proof.
  unfold sort_by_position. induction l as [|x l IH]; cbn; [done|].
  by rewrite insert_by_position_perm, IH.
Qed.

Lemma insert_by_position_sorted x l :
  StronglySorted by_position l → StronglySorted by_position (insert_by_position x l).
Proof.
  induction 1 as [|y l Hs IH Hy]; cbn; [repeat constructor|].
  destruct (y.1 <? x.1) eqn:Hlt.
  - apply Z.ltb_lt in Hlt. constructor; [done|].
    rewrite insert_by_position_perm. constructor; [lia|done].
  - apply Z.ltb_ge in Hlt. constructor; [by constructor|].
    constructor; [done|]. eapply Forall_impl; [done|]. cbn. lia.
Qed.

Lemma sort_by_position_sorted l : StronglySorted by_position (sort_by_position l).
Proof.
  unfold sort_by_position. induction l as [|x l IH]; cbn; [constructor|].
  by apply insert_by_position_sorted.
Qed.

Lemma numbered_lookup ws x :
  x ∈ numbered ws ↔ ∃ i, x.1 = Z.of_nat i ∧ ws !! i = Some x.2.
Proof.
  unfold numbered. rewrite list_elem_of_lookup. split.
  - intros (i & Hi). rewrite list_lookup_imap in Hi.
    destruct (ws !! i) as [w|] eqn:Hw; [|done]. injection Hi as <-. eauto.
  - intros (i & Hx & Hw). exists i. rewrite list_lookup_imap, Hw. cbn.
    destruct x. cbn in *. by subst.
Qed.

Lemma numbered_sorted ws : StronglySorted by_position (numbered ws).
Proof.
  unfold numbered. generalize 0%nat as k.
  assert (∀ k, StronglySorted by_position (imap (fun i w => (Z.of_nat (k + i), w)) ws)) as H.
  { induction ws as [|w ws IH]; intros k; [constructor|].
    rewrite imap_cons. constructor.
    - specialize (IH (S k)). erewrite imap_ext; [exact IH|]. intros i x _. cbn.
      do 2 f_equal. lia.
    - apply Forall_forall. intros x (i & y & -> & _)%elem_of_lookup_imap_1. cbn. lia. }
  intros _. apply (H 0%nat).
Qed.

Lemma numbered_words ws : (numbered ws).*2 = ws.
Proof.
  unfold numbered. rewrite fmap_imap. cbn.
  induction ws as [|w ws IH]; [done|]. rewrite imap_cons. f_equal.
  etrans; [|exact IH]. by apply imap_ext.
Qed.

End reconstruct_abstract_facts.

(** X3.  [reconstruct_abstract] undoes the inversion of a text: when the
    pairs of an index are the words of a text with their positions, in
    whatever order the dictionary lists them, the result is the words of the
    text in their order, single spaces between them. *)
Theorem reconstruct_abstract_round_trip index ws :
  index ≠ [] → word_positions index ≡ₚ numbered ws →
  reconstruct_abstract (Some index) = Str.join " " ws.
Proof.
  intros Hne Hperm. destruct index as [|e index]; [done|]. cbn [reconstruct_abstract].
  f_equal. rewrite <-(numbered_words ws). f_equal.
  apply (StronglySorted_unique_strong (fun a b : Z * string => a.1 ≤ b.1)).
  - intros x1 x2 H1 H2 Hle1 Hle2.
    rewrite sort_by_position_perm, Hperm in H1.
    apply numbered_lookup in H1 as (i & Hi & Hwi). apply numbered_lookup in H2 as (j & Hj & Hwj).
    assert (i = j) as -> by lia. destruct x1, x2. cbn in *. congruence.
  - apply sort_by_position_sorted.
  - apply numbered_sorted.
  - by rewrite sort_by_position_perm.
Qed.

Lemma reconstruct_abstract_round_trip_witness :
  reconstruct_abstract (Some [("the", [0; 2]); ("dog", [3]); ("cat", [1])])
  = "the cat the dog".
Proof.
  apply (reconstruct_abstract_round_trip _ ["the"; "cat"; "the"; "dog"]); [done|].
  vm_compute. apply perm_skip.
  apply (Permutation_trans (l' := [(1, "cat"); (2, "the"); (3, "dog")]));
    [|done].
  etrans; [apply perm_skip, perm_swap|]. apply perm_swap.
Defined.

(** ** The two normalisations of a title *)

Section normalisations.
Import CriticTool.








End normalisations.

Lemma filter_all {A} (P : A → Prop) `{!∀ x, Decision (P x)} (l : list A) :
  (∀ x, x ∈ l → P x) → filter P l = l.
Proof.
  induction l as [|x l IH]; intros Hall; [done|].
  rewrite filter_cons_True by (apply Hall; left). f_equal. apply IH.
  intros y Hy. apply Hall. by right.
Qed.




(** ** _escape_html *)

Section escape_html_facts.

Lemma escape_html_by_chars s : _escape_html s = escape_html_chars s.
Proof.
  unfold _escape_html. case_decide as He; [by subst|]. clear He.
  unfold Str.byte. rewrite !replace_char.
  induction s as [|x s IH]; [done|]. cbn [subst_char escape_html_chars].
  destruct (decide (x = "&"%char)) as [->|Hamp].
  { rewrite decide_True, !subst_char_append, IH by done. done. }
  rewrite (decide_False (P := "&"%char = x)) by done. cbn [subst_char].
  destruct (decide (x = "<"%char)) as [->|Hlt].
  { rewrite decide_True, !subst_char_append, IH by done. done. }
  rewrite (decide_False (P := "<"%char = x)) by done. cbn [subst_char].
  destruct (decide (x = ">"%char)) as [->|Hgt].
  { rewrite decide_True, !subst_char_append, IH by done. done. }
  rewrite (decide_False (P := ">"%char = x)) by done. cbn [subst_char].
  destruct (decide (x = ascii_of_N 34)) as [->|Hq].
  { rewrite decide_True, !subst_char_append, IH by done. done. }
  rewrite (decide_False (P := ascii_of_N 34 = x)) by done. cbn [subst_char].
  destruct (decide (x = "'"%char)) as [->|Hap].
  { rewrite decide_True, IH by done. done. }
  rewrite (decide_False (P := "'"%char = x)) by done. by rewrite IH.
Qed.

Lemma escape_html_chars_inert s : inert_in_html (escape_html_chars s) = true.
Proof.
  induction s as [|x s IH]; [done|]. cbn [escape_html_chars].
  repeat case_decide; subst; rewrite !append_cons, append_nil_l; cbn; try done.
  rewrite !decide_False by naive_solver. done.
Qed.

Lemma escape_html_chars_empty s : escape_html_chars s = EmptyString ↔ s = EmptyString.
Proof.
  destruct s as [|x s]; [done|]. cbn [escape_html_chars].
  split; [|done]. repeat case_decide; rewrite !append_cons; done.
Qed.

End escape_html_facts.

(** X5.  The text [_escape_html] returns is inert in an HTML page, in an
    element as in a quoted attribute: it holds no angle bracket and no
    quote, and every ampersand in it opens one of the five entities.  It is
    empty only for an empty text. *)
Theorem escape_html_inert text :
  inert_in_html (_escape_html text) = true
  ∧ (_escape_html text = EmptyString ↔ text = EmptyString).
Proof.
  rewrite escape_html_by_chars. split.
  - apply escape_html_chars_inert.
  - apply escape_html_chars_empty.
Qed.

(** X6.  [_escape_html] loses nothing: reading the five entities back gives
    the text again, whatever it holds, entities included. *)
Theorem escape_html_round_trip text : shown (_escape_html text) = text.
Proof.
  rewrite escape_html_by_chars. unfold shown.
  induction text as [|x s IH]; [done|]. cbn [escape_html_chars].
  repeat case_decide; subst; rewrite !append_cons, append_nil_l; cbn; rewrite ?IH; try done.
  rewrite !decide_False by naive_solver. done.
Qed.

(** ** The ledger under evaluate_papers *)

Section ledger.
Import CriticTool.

(** What the body of the loop does with an item does not depend on the
    ledger: it raises, or it writes one entry. *)
Lemma evaluate_item_uniform item :
  (∃ k ev, ∀ l, evaluate_item item l = Ok (<[k := ev]> l))
  ∨ (∃ e, ∀ l, evaluate_item item l = Raise e).
Proof.
  unfold evaluate_item, composite.
  destruct item as [| | | | |l|d]; try (right; eexists; intros; reflexivity). cbn.
  destruct (Py.dict_get d "paper_title" (JStr "")) as [| | | |t| |] eqn:Ht;
    try (right; eexists; intros; reflexivity). cbn.
  destruct (Py.mul_float (Py.dict_get d "relevance_score" (JFloat 3)) 0.4)
    as [a|]; try (right; eexists; intros; reflexivity). cbn.
  destruct (Py.mul_float (Py.dict_get d "methodological_soundness" (JFloat 3)) 0.3)
    as [b|]; try (right; eexists; intros; reflexivity). cbn.
  destruct (Py.mul_float (Py.dict_get d "impact_score" (JFloat 3)) 0.3)
    as [c|]; try (right; eexists; intros; reflexivity). cbn.
  left. eexists _, _. intros. reflexivity.
Qed.

Lemma Ok_inj {A} (x y : A) : Ok x = Ok y → x = y.
Proof. congruence. Qed.

Lemma insert_empty_inj (k k' : string) (ev ev' : evaluation) :
  <[k := ev]> (∅ : gmap string evaluation) = <[k' := ev']> ∅ → k = k' ∧ ev = ev'.
Proof.
  intros H. assert ((<[k' := ev']> (∅ : gmap string evaluation)) !! k = Some ev) as Hk
    by (by rewrite <-H, lookup_insert_eq).
  apply lookup_insert_Some in Hk as [[-> ->]|[_ Hk]]; [done|].
  by rewrite lookup_empty in Hk.
Qed.

Lemma evaluate_item_writes item k ev l :
  evaluate_item item ∅ = Ok (<[k := ev]> ∅) → evaluate_item item l = Ok (<[k := ev]> l).
Proof.
  intros H. destruct (evaluate_item_uniform item) as [(k' & ev' & Hu)|(e & Hu)].
  - rewrite Hu in H. apply Ok_inj, insert_empty_inj in H as [-> ->]. apply Hu.
  - by rewrite Hu in H.
Qed.

Lemma ingest_cons x items l :
  ingest (x :: items) l
  = ingest items (match evaluate_item x l with Ok l' => l' | Raise _ => l end).
Proof. done. Qed.

Lemma ingest_app xs ys l : ingest (xs ++ ys) l = ingest ys (ingest xs l).
Proof. unfold ingest. apply foldl_app. Qed.

Lemma ingest_frame items l k :
  (∀ x lx, x ∈ items → evaluate_item x ∅ = Ok lx → lx !! k = None) →
  ingest items l !! k = l !! k.
Proof.
  revert l. induction items as [|x rest IH]; intros l Hno; [done|].
  rewrite ingest_cons.
  rewrite IH by (intros y ly Hy; apply Hno; by right).
  destruct (evaluate_item_uniform x) as [(k' & ev' & Hu)|(e & Hu)]; rewrite Hu; [|done].
  assert (k' ≠ k) as Hne.
  { intros ->. specialize (Hno x _ ltac:(left) (Hu ∅)). by rewrite lookup_insert_eq in Hno. }
  by rewrite lookup_insert_ne.
Qed.

Lemma ingest_union items a l : ingest items (a ∪ l) = ingest items a ∪ l.
Proof.
  revert a. induction items as [|x rest IH]; intros a; [done|].
  rewrite !ingest_cons.
  destruct (evaluate_item_uniform x) as [(k & ev & Hu)|(e & Hu)]; rewrite !Hu; [|apply IH].
  by rewrite insert_union_l, IH.
Qed.

Lemma ingest_over items l : ingest items l = ingest items ∅ ∪ l.
Proof. by rewrite <-ingest_union, (left_id_L ∅ (∪)). Qed.

Lemma ingest_twice items l : ingest items (ingest items l) = ingest items l.
Proof.
  rewrite (ingest_over items (ingest items l)), (ingest_over items l).
  by rewrite (assoc_L (∪)), (idemp_L (∪)).
Qed.

Lemma first_malformed_take items n e :
  first_malformed items = Some (n, e) → first_malformed (take n items) = None.
Proof.
  revert n. induction items as [|x rest IH]; intros n; [done|]. cbn.
  destruct (item_error x) eqn:Hx; [by intros [= <- <-]|].
  destruct (first_malformed rest) as [[m e']|]; [|done].
  intros [= <- <-]. cbn. by rewrite Hx, (IH m).
Qed.

End ledger.

(** X7.  [evaluate_papers] only adds to the ledger and overwrites in it: an
    entry that was there is still there under its key, a key that no item of
    the payload writes keeps what it had, and of several items of a
    well-formed payload that write the same key the last one is the one the
    ledger holds afterwards. *)
Theorem evaluate_papers_last_wins evaluations st :
  let before := CRITIC_EVALUATIONS st in
  let after := CRITIC_EVALUATIONS (CriticTool.evaluate_papers evaluations st).1 in
  (∀ k, is_Some (before !! k) → is_Some (after !! k))
  ∧ (∀ k, (∀ v items x lx, evaluations = Decoded v → Py.iter v = Ok items → x ∈ items →
             CriticTool.evaluate_item x ∅ = Ok lx → lx !! k = None) →
          after !! k = before !! k)
  ∧ (∀ pre item post k ev,
       evaluations = Decoded (JList (pre ++ item :: post)) →
       first_malformed (pre ++ item :: post) = None →
       CriticTool.evaluate_item item ∅ = Ok (<[k := ev]> ∅) →
       (∀ x lx, x ∈ post → CriticTool.evaluate_item x ∅ = Ok lx → lx !! k = None) →
       after !! k = Some ev).
Proof.
  cbn zeta. unfold CriticTool.evaluate_papers.
  destruct evaluations as [msg|v]; [split_and!; [done|done|intros; discriminate]|].
  destruct (Py.iter v) as [items|e] eqn:Hiter.
  2:{ split_and!; [done|done|]. intros pre item post k ev [= ->]. discriminate. }
  rewrite evaluate_loop_outcome.
  split_and!.
  - intros k Hk. destruct (first_malformed items) as [[n e]|]; cbn; by apply ingest_keeps.
  - intros k Hno.
    assert (∀ n, ingest (take n items) (CRITIC_EVALUATIONS st) !! k
                 = CRITIC_EVALUATIONS st !! k) as Htake.
    { intros n. apply ingest_frame. intros x lx Hx. apply (Hno v items); [done|done|].
      eapply elem_of_sublist; [done|apply sublist_take]. }
    destruct (first_malformed items) as [[n e]|]; cbn; [apply Htake|].
    rewrite <-(Htake (length items)). by rewrite firstn_all.
  - intros pre item post k ev [= ->] Hwf Hitem Hpost. cbn in Hiter. injection Hiter as <-.
    rewrite Hwf. cbn. rewrite ingest_app, ingest_cons, ingest_frame by done.
    by rewrite (evaluate_item_writes _ _ _ _ Hitem), lookup_insert_eq.
Qed.

(** Of two entries for "Deep Learning", in different case, the ledger holds
    the second. *)
Lemma evaluate_papers_last_wins_witness :
  CRITIC_EVALUATIONS
    (CriticTool.evaluate_papers
       (Decoded (JList [JObj [("paper_title", JStr "Deep Learning");
                              ("recommended_action", JStr "exclude")];
                        JObj [("paper_title", JStr " deep learning");
                              ("recommended_action", JStr "include")]]))
       empty_state).1 !! "deep learning"
  = Some (Evaluation (JFloat 3) (JFloat 3) (JFloat 3) (JBool false) (JList [])
            (JStr "include") (JStr "") (3 * 0.4 + 3 * 0.3 + 3 * 0.3)%float).
Proof.
  destruct (evaluate_papers_last_wins
              (Decoded (JList [JObj [("paper_title", JStr "Deep Learning");
                                     ("recommended_action", JStr "exclude")];
                               JObj [("paper_title", JStr " deep learning");
                                     ("recommended_action", JStr "include")]]))
              empty_state) as (_ & _ & H).
  apply (H [JObj [("paper_title", JStr "Deep Learning");
                  ("recommended_action", JStr "exclude")]]
           (JObj [("paper_title", JStr " deep learning");
                  ("recommended_action", JStr "include")]) []);
    [reflexivity|reflexivity|reflexivity|].
  intros x lx Hx. by apply elem_of_nil in Hx.
Defined.

(** X8.  Sending the same payload a second time changes nothing: the ledger
    and the reply are those of the first call, whether the payload is well
    formed or not. *)
Theorem evaluate_papers_idempotent evaluations st :
  CriticTool.evaluate_papers evaluations (CriticTool.evaluate_papers evaluations st).1
  = CriticTool.evaluate_papers evaluations st.
Proof.
  unfold CriticTool.evaluate_papers.
  destruct evaluations as [msg|v]; [done|].
  destruct (Py.iter v) as [items|e] eqn:Hiter; [|done].
  rewrite evaluate_loop_outcome.
  destruct (first_malformed items) as [[n e]|] eqn:Hwf;
    rewrite evaluate_loop_outcome, Hwf; destruct st as [h papers ledger fs];
    cbn [fst CRITIC_EVALUATIONS set_evaluations objects COLLECTED_PAPERS files];
    by rewrite ingest_twice.
Qed.

(** ** From the payload of the critic to the report *)

Section chain.
Import CriticTool.





End chain.



(** ** The assessment paragraph of the PDF report *)

Section render.
Import PDFReportTool.



Lemma bib_entries_raise i papers p ev e :
  p ∈ papers → critic_evaluation p = Some ev → eval_text ev = Raise e →
  ∃ e', bib_entries i papers = Raise e'.
Proof.
  intros Hin Hev Hraise. revert i.
  induction papers as [|q rest IH]; intros i; [by apply elem_of_nil in Hin|].
  cbn [bib_entries]. destruct (bib_entry i q) as [b|e0] eqn:Hq; cbn; [|eauto].
  apply elem_of_cons in Hin as [->|Hin].
  - unfold bib_entry in Hq. rewrite Hev, Hraise in Hq. discriminate.
  - destruct (IH Hin (S i)) as [e' ->]. cbn. eauto.
Qed.

End render.



(** X11.  When the evaluation attached to a paper of the report cannot be
    rendered, [generate_report] raises: no file is written, and the papers
    keep the ranks and actions the call has already given them. *)
Theorem generate_report_raises executive_summary subject st r ev e :
  let c := Composer.compose st in
  r ∈ Composer.included_papers c →
  critic_evaluation (Composer.heap c r) = Some ev →
  PDFReportTool.eval_text ev = Raise e →
  ∃ e', PDFReportTool.generate_report executive_summary subject st
        = (set_objects (Composer.heap c) st, Raise e').
Proof.
  intros c Hr Hev Hraise. unfold PDFReportTool.generate_report.
  destruct (COLLECTED_PAPERS st) as [|r0 rest] eqn:Hp.
  { exfalso. destruct (compose_spec st) as (_ & Hu & Hinc & _). cbn zeta in *.
    fold c in Hu, Hinc. rewrite Hinc, Hu, Hp in Hr. cbn in Hr.
    by apply elem_of_nil in Hr. }
  fold c. unfold PDFReportTool.story.
  destruct (bib_entries_raise 1 (Composer.heap c <$> Composer.included_papers c)
              (Composer.heap c r) ev e) as [e' ->]; try done.
  { apply list_elem_of_fmap. eauto. }
  cbn. eauto.
Qed.

(** The critic's entry for "Alpha" has numbers for flags: it is accepted,
    and the PDF report of the three papers raises. *)
Lemma generate_report_raises_witness :
  let st := (CriticTool.evaluate_papers
               (Decoded (JList [JObj [("paper_title", JStr "Alpha");
                                      ("flags", JList [JInt 1])]]))
               three_papers).1 in
  ∃ e', PDFReportTool.generate_report "A summary." "Deep learning" st
        = (set_objects (Composer.heap (Composer.compose st)) st, Raise e').
Proof.
  cbn zeta.
  apply (generate_report_raises "A summary." "Deep learning" _ 0%nat
           (Evaluation (JFloat 3) (JFloat 3) (JFloat 3) (JBool false) (JList [JInt 1])
              (JStr "include") (JStr "") (3 * 0.4 + 3 * 0.3 + 3 * 0.3)%float) TypeError).
  - vm_compute. right. left.
  - vm_compute. reflexivity.
  - reflexivity.
Defined.

(** ** A report after a report *)

Section rerun.
Import Composer.

Lemma attach_twice ledger k p : attach ledger k (attach ledger k p) = attach ledger k p.
Proof. unfold attach. by destruct (ledger !! k), p. Qed.

Lemma sort_reverse_ext h1 h2 l :
  (∀ r, h1 r = h2 r) → sort_reverse h1 l = sort_reverse h2 l.
Proof.
  intros Hh. unfold sort_reverse. induction l as [|x l IH]; [done|]. cbn. rewrite IH.
  generalize (foldr (insert_desc h2) [] l). intros s.
  induction s as [|y s IHs]; [done|]. cbn. by rewrite !Hh, IHs.
Qed.

(** The composer on a state that a report generator has left. *)
Lemma compose_settled st st' :
  COLLECTED_PAPERS st' = COLLECTED_PAPERS st →
  CRITIC_EVALUATIONS st' = CRITIC_EVALUATIONS st →
  (∀ r, objects st' r = heap (compose st) r) →
  unique_papers (compose st') = unique_papers (compose st)
  ∧ included_papers (compose st') = included_papers (compose st)
  ∧ excluded_count (compose st') = excluded_count (compose st)
  ∧ ∀ r, heap (compose st') r = heap (compose st) r.
Proof.
  intros Hcp Hledger Hobj.
  destruct (compose_spec st) as (Hheap & Hu & Hinc & Hexc).
  destruct (compose_spec st') as (Hheap' & Hu' & Hinc' & Hexc'). cbn zeta in *.
  assert (∀ r, key (objects st' r) = key (objects st r)) as Hkey.
  { intros r. rewrite Hobj, Hheap. unfold key. case_decide; [|done]. by rewrite attach_title. }
  rewrite Hcp, Hledger, (unique_from_ext _ _ _ _ Hkey) in Hheap'.
  rewrite Hcp, (unique_from_ext _ _ _ _ Hkey) in Hu'.
  set (u := unique_from (objects st) ∅ (COLLECTED_PAPERS st)) in *.
  assert (∀ r, heap (compose st') r = heap (compose st) r) as Hsame.
  { intros r. rewrite Hheap', Hkey, Hobj, Hheap. case_decide; [|done]. apply attach_twice. }
  assert (unique_papers (compose st') = unique_papers (compose st)) as Hunique.
  { rewrite Hu', Hu. by apply sort_reverse_ext. }
  assert (included_papers (compose st') = included_papers (compose st)) as Hincluded.
  { rewrite Hinc', Hinc, Hunique. apply list_filter_iff. intros r. by rewrite Hsame. }
  split_and!; try done. by rewrite Hexc', Hexc, Hunique, Hincluded.
Qed.

Lemma compose_settled_papers st st' :
  COLLECTED_PAPERS st' = COLLECTED_PAPERS st →
  CRITIC_EVALUATIONS st' = CRITIC_EVALUATIONS st →
  (∀ r, objects st' r = heap (compose st) r) →
  heap (compose st') <$> included_papers (compose st')
  = heap (compose st) <$> included_papers (compose st).
Proof.
  intros Hcp Hledger Hobj.
  destruct (compose_settled st st' Hcp Hledger Hobj) as (_ & -> & _ & Hsame).
  apply list_fmap_ext. intros i r _. apply Hsame.
Qed.

(** What the next generator sees of the state a generator leaves: the same
    collection and ledger, and the objects as the composer has left them. *)
Lemma generate_report_leaves executive_summary subject st :
  COLLECTED_PAPERS st ≠ [] →
  let st' := (PDFReportTool.generate_report executive_summary subject st).1 in
  COLLECTED_PAPERS st' = COLLECTED_PAPERS st
  ∧ CRITIC_EVALUATIONS st' = CRITIC_EVALUATIONS st
  ∧ (∀ r, objects st' r = heap (compose st) r)
  ∧ ∀ name, name ≠ "executive_summary.pdf" → files st' !! name = files st !! name.
Proof.
  intros Hne. unfold PDFReportTool.generate_report.
  destruct (COLLECTED_PAPERS st) eqn:Hp; [done|].
  destruct (PDFReportTool.story _ _ _ _); cbn; rewrite ?Hp; split_and!; try done.
  intros name Hname. by rewrite lookup_insert_ne.
Qed.

Lemma generate_html_report_leaves _generate_html executive_summary subject st :
  COLLECTED_PAPERS st ≠ [] →
  let st' := (HTMLReportTool.generate_html_report _generate_html
                executive_summary subject st).1 in
  COLLECTED_PAPERS st' = COLLECTED_PAPERS st
  ∧ CRITIC_EVALUATIONS st' = CRITIC_EVALUATIONS st
  ∧ (∀ r, objects st' r = heap (compose st) r)
  ∧ ∀ name, name ≠ "executive_summary.html" → files st' !! name = files st !! name.
Proof.
  intros Hne. unfold HTMLReportTool.generate_html_report.
  destruct (COLLECTED_PAPERS st) eqn:Hp; [done|].
  destruct (_generate_html _ _ _ _); cbn; rewrite ?Hp; split_and!; try done.
  intros name Hname. by rewrite lookup_insert_ne.
Qed.

Lemma generate_report_settled executive_summary subject st st' :
  COLLECTED_PAPERS st' = COLLECTED_PAPERS st →
  CRITIC_EVALUATIONS st' = CRITIC_EVALUATIONS st →
  (∀ r, objects st' r = heap (compose st) r) →
  let out := PDFReportTool.generate_report executive_summary subject st in
  let out' := PDFReportTool.generate_report executive_summary subject st' in
  out'.2 = out.2
  ∧ (∀ r, objects out'.1 r = objects out.1 r)
  ∧ (COLLECTED_PAPERS st ≠ [] →
     files out'.1 !! "executive_summary.pdf" = files out.1 !! "executive_summary.pdf"
     ∨ ((∃ e, out.2 = Raise e)
        ∧ files out'.1 !! "executive_summary.pdf" = files st' !! "executive_summary.pdf"
        ∧ files out.1 !! "executive_summary.pdf" = files st !! "executive_summary.pdf")).
Proof.
  intros Hcp Hledger Hobj. cbn zeta. unfold PDFReportTool.generate_report. rewrite Hcp.
  destruct (COLLECTED_PAPERS st) eqn:Hp.
  { cbn. split_and!; try done. intros r. rewrite Hobj.
    destruct (compose_spec st) as (Hheap & _). cbn zeta in Hheap.
    rewrite Hheap, Hp. cbn. by rewrite decide_False by apply not_elem_of_nil. }
  rewrite <-Hp in Hcp.
  rewrite (compose_settled_papers st st' Hcp Hledger Hobj).
  destruct (compose_settled st st' Hcp Hledger Hobj) as (_ & -> & -> & Hsame).
  destruct (PDFReportTool.story _ _ _ _); cbn; split_and!; try done.
  - intros _. left. by rewrite !lookup_insert_eq.
  - intros _. right. eauto.
Qed.

Lemma generate_html_report_settled _generate_html executive_summary subject st st' :
  COLLECTED_PAPERS st' = COLLECTED_PAPERS st →
  CRITIC_EVALUATIONS st' = CRITIC_EVALUATIONS st →
  (∀ r, objects st' r = heap (compose st) r) →
  let out := HTMLReportTool.generate_html_report _generate_html
               executive_summary subject st in
  let out' := HTMLReportTool.generate_html_report _generate_html
                executive_summary subject st' in
  out'.2 = out.2
  ∧ (∀ r, objects out'.1 r = objects out.1 r)
  ∧ (COLLECTED_PAPERS st ≠ [] →
     files out'.1 !! "executive_summary.html" = files out.1 !! "executive_summary.html"
     ∨ ((∃ e, out.2 = Raise e)
        ∧ files out'.1 !! "executive_summary.html" = files st' !! "executive_summary.html"
        ∧ files out.1 !! "executive_summary.html" = files st !! "executive_summary.html")).
Proof.
  intros Hcp Hledger Hobj. cbn zeta. unfold HTMLReportTool.generate_html_report. rewrite Hcp.
  destruct (COLLECTED_PAPERS st) eqn:Hp.
  { cbn. split_and!; try done. intros r. rewrite Hobj.
    destruct (compose_spec st) as (Hheap & _). cbn zeta in Hheap.
    rewrite Hheap, Hp. cbn. by rewrite decide_False by apply not_elem_of_nil. }
  rewrite <-Hp in Hcp.
  rewrite (compose_settled_papers st st' Hcp Hledger Hobj).
  destruct (compose_settled st st' Hcp Hledger Hobj) as (_ & -> & -> & Hsame).
  destruct (_generate_html _ _ _ _); cbn; split_and!; try done.
  - intros _. left. by rewrite !lookup_insert_eq.
  - intros _. right. eauto.
Qed.

End rerun.

(** X12.  The two report generators do not interfere, although each one
    writes into the papers of the collection.  After a run of the PDF
    generator the HTML generator composes the same papers in the same order
    with the same counts as without it, so that its reply and its page are
    the same; likewise the reply and the story of the PDF generator after a
    run of the HTML generator; and a second run of the PDF generator repeats
    the first and leaves every paper as the first has left it.  (The date
    on a report is the clock's and stays symbolic.) *)
Theorem report_generators_do_not_interfere _generate_html executive_summary subject st :
  let pdf := PDFReportTool.generate_report executive_summary subject in
  let html := HTMLReportTool.generate_html_report _generate_html executive_summary subject in
  ((html (pdf st).1).2 = (html st).2
   ∧ files (html (pdf st).1).1 !! "executive_summary.html"
     = files (html st).1 !! "executive_summary.html")
  ∧ ((pdf (html st).1).2 = (pdf st).2
     ∧ files (pdf (html st).1).1 !! "executive_summary.pdf"
       = files (pdf st).1 !! "executive_summary.pdf")
  ∧ ((pdf (pdf st).1).2 = (pdf st).2
     ∧ ∀ r, objects (pdf (pdf st).1).1 r = objects (pdf st).1 r).
Proof.
  cbn zeta. destruct (decide (COLLECTED_PAPERS st = [])) as [Hempty|Hne].
  { unfold PDFReportTool.generate_report, HTMLReportTool.generate_html_report.
    rewrite !Hempty. cbn. rewrite !Hempty. done. }
  destruct (generate_report_leaves executive_summary subject st Hne)
    as (Hcp & Hledger & Hobj & Hfiles).
  destruct (generate_html_report_leaves _generate_html executive_summary subject st Hne)
    as (Hcp' & Hledger' & Hobj' & Hfiles'). cbn zeta in *.
  split_and!.
  - by apply generate_html_report_settled.
  - destruct (generate_html_report_settled _generate_html executive_summary subject st _
                Hcp Hledger Hobj) as (_ & _ & [H|(_ & -> & ->)]); [done..|].
    by apply Hfiles.
  - by apply generate_report_settled.
  - destruct (generate_report_settled executive_summary subject st _
                Hcp' Hledger' Hobj') as (_ & _ & [H|(_ & -> & ->)]); [done..|].
    by apply Hfiles'.
  - by apply generate_report_settled.
  - by apply generate_report_settled.
Qed.

(** ** ArXivTool.search *)

Section arxiv.

Lemma max_list_snoc l x : max_list (l ++ [x]) = (max_list l `max` x)%nat.
Proof. induction l as [|y l IH]; cbn; [lia|]. rewrite IH. lia. Qed.

Lemma fresh_ref_append p st : fresh_ref (append_paper p st) = S (fresh_ref st).
Proof.
  unfold append_paper, fresh_ref at 1. cbn [COLLECTED_PAPERS]. rewrite max_list_snoc.
  unfold fresh_ref. lia.
Qed.

Lemma append_all_spec ps st :
  let st' := append_all ps st in
  let new := seq (fresh_ref st) (length ps) in
  COLLECTED_PAPERS st' = COLLECTED_PAPERS st ++ new
  ∧ objects st' <$> new = ps
  ∧ (∀ r, (r < fresh_ref st)%nat → objects st' r = objects st r)
  ∧ CRITIC_EVALUATIONS st' = CRITIC_EVALUATIONS st
  ∧ files st' = files st.
Proof.
  revert st. induction ps as [|p ps IH]; intros st; cbn zeta.
  { cbn. by rewrite app_nil_r. }
  destruct (IH (append_paper p st)) as (Hcp & Hobj & Hold & Hledger & Hfiles).
  cbn zeta in *. rewrite fresh_ref_append in *.
  change (append_all (p :: ps) st) with (append_all ps (append_paper p st)).
  split_and!.
  - rewrite Hcp. cbn. by rewrite <-app_assoc.
  - cbn [length seq fmap list_fmap]. rewrite Hobj, Hold by lia.
    cbn. by rewrite fn_lookup_insert.
  - intros r Hr. rewrite Hold by lia. cbn. rewrite fn_lookup_insert_ne; [done|lia].
  - by rewrite Hledger.
  - by rewrite Hfiles.
Qed.

Variable get_text normalize_NFKD : string → string.

Lemma search_loop_spec start_year end_year num_papers results st count :
  count = 0%nat ∨ Z.of_nat count < num_papers →
  let hits := filter (fun res => start_year ≤ res_published_year res ≤ end_year) results in
  let k := Z.to_nat (Z.max 1 (num_papers - Z.of_nat count)) in
  ArXivTool.search_loop get_text normalize_NFKD start_year end_year num_papers results st count
  = (append_all (ArXivTool.paper_data get_text normalize_NFKD <$> take k hits) st,
     (count + length (take k hits))%nat,
     bool_decide (k ≤ length hits)%nat).
Proof.
  revert st count. induction results as [|res rest IH]; intros st count Hcount; cbn zeta.
  { cbn. rewrite take_nil. cbn. rewrite Nat.add_0_r, bool_decide_eq_false_2; [done|lia]. }
  cbn [ArXivTool.search_loop]. case_decide as Hin.
  - rewrite filter_cons_True by done. case_decide as Hfull.
    + replace (Z.to_nat (1 `max` (num_papers - Z.of_nat count))) with 1%nat by lia.
      cbn. rewrite Nat.add_1_r, bool_decide_eq_true_2; [done|lia].
    + rewrite IH by lia. cbn zeta.
      replace (Z.to_nat (1 `max` (num_papers - Z.of_nat count)))
        with (S (Z.to_nat (1 `max` (num_papers - Z.of_nat (S count))))) by lia.
      cbn [take length fmap list_fmap]. rewrite Nat.add_succ_r. cbn [Nat.add].
      f_equal. apply bool_decide_ext. lia.
  - rewrite filter_cons_False by done. by apply IH.
Qed.

End arxiv.

(** X13.  [ArXivTool.search] appends to the collection, in the order of the
    client, the first results whose year lies in the range, [num_papers] of
    them and at least one if there is any; nothing that was in the
    collection is changed, and the ledger and the files are left alone.
    When the client fails after its listed results, the papers appended
    before stay in the collection, and the reply is the error unless the
    loop had already stopped. *)
Theorem arxiv_search_appends get_text normalize_NFKD start_year end_year num_papers
    results failure st :
  let out := ArXivTool.search get_text normalize_NFKD start_year end_year num_papers
               results failure st in
  let hits := filter (fun res => start_year ≤ res_published_year res ≤ end_year) results in
  let wanted := Z.to_nat (Z.max 1 num_papers) in
  let added := take wanted hits in
  (∃ new, COLLECTED_PAPERS out.1 = COLLECTED_PAPERS st ++ new
          ∧ NoDup new ∧ (∀ r, r ∈ new → r ∉ COLLECTED_PAPERS st)
          ∧ objects out.1 <$> new = ArXivTool.paper_data get_text normalize_NFKD <$> added)
  ∧ (∀ r, r ∈ COLLECTED_PAPERS st → objects out.1 r = objects st r)
  ∧ CRITIC_EVALUATIONS out.1 = CRITIC_EVALUATIONS st
  ∧ files out.1 = files st
  ∧ out.2 = match failure with
            | Some e => if decide (wanted ≤ length hits)%nat
                        then Added (length added) else SearchError e
            | None => Added (length added)
            end.
Proof.
  cbn zeta. unfold ArXivTool.search.
  rewrite search_loop_spec by (by left). cbn zeta.
  rewrite Z.sub_0_r. cbn [Nat.add].
  set (hits := filter _ results). set (wanted := Z.to_nat (1 `max` num_papers)).
  set (ps := ArXivTool.paper_data get_text normalize_NFKD <$> take wanted hits).
  destruct (append_all_spec ps st) as (Hcp & Hobj & Hold & Hledger & Hfiles).
  cbn zeta in *.
  assert (∀ r, r ∈ COLLECTED_PAPERS st → (r < fresh_ref st)%nat) as Hlt.
  { intros r Hr%max_list_elem_of_le. unfold fresh_ref. lia. }
  assert (∃ st', st' = append_all ps st
             ∧ (match failure with
                | Some e => if bool_decide (wanted ≤ length hits)%nat
                            then (append_all ps st, Added (length (take wanted hits)))
                            else (append_all ps st, SearchError e)
                | None => (append_all ps st, Added (length (take wanted hits)))
                end).1 = st') as (st' & Hst' & ->).
  { exists (append_all ps st). split; [done|].
    destruct failure; [case_bool_decide|]; done. }
  subst st'. split_and!.
  - exists (seq (fresh_ref st) (length ps)). split_and!; try done.
    + apply NoDup_seq.
    + intros r Hr%elem_of_seq Hin%Hlt. lia.
  - intros r Hr. apply Hold. by apply Hlt.
  - done.
  - done.
  - destruct failure; [|done]. case_bool_decide; [by rewrite decide_True|by rewrite decide_False].
Qed.

(** ** The composer: ties *)

Section stable.
Import Composer.





Variable h : ref → paper.
Variable P : ref → Prop.
Context `{!∀ r, Decision (P r)}.
Hypothesis P_tied : ∀ a b, P a → P b → key_lt (sort_key (h a)) (sort_key (h b)) = false.



End stable.



(** ** Truncation and entities *)

Section truncate_escape.

Lemma starts_with_append p s t :
  Str.starts_with p s = true → Str.starts_with p (s +:+ t) = true.
Proof.
  revert s. induction p as [|a p IH]; intros s; [done|].
  destruct s as [|b s]; [done|]. rewrite append_cons. cbn.
  case_decide; [apply IH|done].
Qed.

Lemma well_escaped_append a b :
  well_escaped a = true → well_escaped b = true → well_escaped (a +:+ b) = true.
Proof.
  intros Ha Hb. induction a as [|c a IH]; [done|].
  rewrite append_cons. cbn [well_escaped] in *.
  case_decide; [done|]. case_decide; [|by apply IH].
  apply andb_prop in Ha as [Hent Ha]. rewrite (IH Ha), andb_true_r.
  repeat (apply orb_prop in Hent as [Hent|Hent]);
    by rewrite (starts_with_append _ _ _ Hent), ?orb_true_r.
Qed.

Lemma well_escaped_join ws :
  Forall (fun w => well_escaped w = true) ws → well_escaped (Str.join " " ws) = true.
Proof.
  induction 1 as [|w ws Hw Hws IH]; [done|].
  destruct ws as [|w2 ws]; [done|].
  change (Str.join " " (w :: w2 :: ws)) with (w +:+ " " +:+ Str.join " " (w2 :: ws)).
  apply well_escaped_append; [done|]. by apply (well_escaped_append " ").
Qed.

(** The first word of a text that begins with a character other than
    whitespace, and what follows it. *)
Lemma split_first c s :
  Str.isspace c = false →
  ∃ w ws rest, Str.split (String c s) = String c w :: ws
               ∧ s = w +:+ rest ∧ no_space w = true
               ∧ (rest = EmptyString ∨ ∃ c' s', rest = String c' s' ∧ Str.isspace c' = true).
Proof.
  revert c. induction s as [|c' s IH]; intros c Hc.
  { exists EmptyString, [], EmptyString. cbn. rewrite Hc. eauto. }
  destruct (Str.isspace c') eqn:Hc'.
  - exists EmptyString, (Str.split (String c' s)), (String c' s).
    split_and!; eauto. change (Str.split (String c (String c' s)))
      with (if Str.isspace c then Str.split (String c' s)
            else if Str.isspace c' then String c EmptyString :: Str.split (String c' s)
                 else match Str.split (String c' s) with
                      | w :: ws => String c w :: ws
                      | [] => [String c EmptyString]
                      end).
    by rewrite Hc, Hc'.
  - destruct (IH c' Hc') as (w & ws & rest & Hsplit & -> & Hw & Hrest).
    exists (String c' w), ws, rest. split_and!; try done.
    + change (Str.split (String c (String c' (w +:+ rest))))
        with (if Str.isspace c then Str.split (String c' (w +:+ rest))
              else if Str.isspace c'
                   then String c EmptyString :: Str.split (String c' (w +:+ rest))
                   else match Str.split (String c' (w +:+ rest)) with
                        | w :: ws => String c w :: ws
                        | [] => [String c EmptyString]
                        end).
      by rewrite Hc, Hc', Hsplit.
    + cbn. by rewrite Hc', Hw.
Qed.

Lemma starts_with_word p w rest :
  no_space p = true →
  (rest = EmptyString ∨ ∃ c' s', rest = String c' s' ∧ Str.isspace c' = true) →
  Str.starts_with p (w +:+ rest) = true → Str.starts_with p w = true.
Proof.
  intros Hp Hrest. revert w. induction p as [|a p IH]; intros w; [done|].
  cbn in Hp. apply andb_prop in Hp as [Ha%negb_true_iff Hp].
  destruct w as [|b w].
  - rewrite append_nil_l. destruct Hrest as [->|(c' & s' & -> & Hc')]; [done|].
    cbn. case_decide; [congruence|done].
  - rewrite append_cons. cbn. case_decide; [by apply IH|done].
Qed.

Lemma well_escaped_prefix w rest :
  (rest = EmptyString ∨ ∃ c' s', rest = String c' s' ∧ Str.isspace c' = true) →
  well_escaped (w +:+ rest) = true → well_escaped w = true ∧ well_escaped rest = true.
Proof.
  intros Hrest. induction w as [|c w IH]; [done|].
  rewrite append_cons. cbn [well_escaped].
  case_decide; [done|]. case_decide; [|done].
  intros [Hent Hw]%andb_prop. destruct (IH Hw) as [-> ->]. split; [|done].
  rewrite andb_true_r.
  repeat (apply orb_prop in Hent as [Hent|Hent]);
    (apply starts_with_word in Hent; [|reflexivity|done]);
    by rewrite Hent, ?orb_true_r.
Qed.

Lemma well_escaped_space c s :
  Str.isspace c = true → well_escaped (String c s) = well_escaped s.
Proof.
  intros Hc. cbn. rewrite !decide_False; [done|intros ->; done|intros [->| ->]; done].
Qed.

Lemma string_length_append a b :
  String.length (a +:+ b) = (String.length a + String.length b)%nat.
Proof. induction a as [|c a IH]; [done|]. rewrite append_cons. cbn. by rewrite IH. Qed.

Lemma well_escaped_words s :
  well_escaped s = true → Forall (fun w => well_escaped w = true) (Str.split s).
Proof.
  remember (String.length s) as n eqn:Hn. revert s Hn.
  induction (lt_wf n) as [n _ IH]. intros s -> Hs.
  destruct s as [|c s]; [constructor|].
  destruct (Str.isspace c) eqn:Hc.
  - rewrite split_space by done. rewrite well_escaped_space in Hs by done.
    eapply IH; [|done..]. cbn. lia.
  - destruct (split_first c s Hc) as (w & ws & rest & Hsplit & -> & Hw & Hrest).
    rewrite <-append_cons in Hs |- *.
    assert (is_word (String c w)) as Hword by (by apply is_word_cons).
    rewrite split_word_then by done.
    apply well_escaped_prefix in Hs as [Hcw Hr]; [|done].
    constructor; [done|]. eapply IH; [|done..].
    cbn. rewrite string_length_append. lia.
Qed.

End truncate_escape.

(** X15.  Truncation does not cut an entity: a text in which the markup
    characters are escaped, as [clean_text] leaves it, is still so after
    [truncate_abstract], for every number of words. *)
Theorem truncate_abstract_keeps_entities text n :
  well_escaped text = true → well_escaped (truncate_abstract text n) = true.
Proof.
  intros Hs. unfold truncate_abstract.
  repeat case_decide; try done.
  apply well_escaped_append; [|done]. apply well_escaped_join.
  apply Forall_take. by apply well_escaped_words.
Qed.

(** "a &amp; b c" cut to two words is "a &amp;...". *)
Lemma truncate_abstract_keeps_entities_witness :
  well_escaped (truncate_abstract "a &amp; b c" 2) = true
  ∧ truncate_abstract "a &amp; b c" 2 = "a &amp;...".
Proof.
  split; [|reflexivity]. by apply truncate_abstract_keeps_entities.
Defined.

(** ** clear_papers *)

(** X16.  No evaluation survives [clear_papers].  Whatever is collected
    after it, the composer finds no entry in the ledger: every paper it
    keeps gets rank 3.0 and action "include", all of them are included, and
    none is counted as excluded.  The reset itself leaves an empty
    collection, on which the critic tool and the report generators answer
    with their empty replies, and it does not remove the report files. *)
Theorem clear_papers_forgets executive_summary subject st ps :
  let st0 := (clear_papers st).1 in
  let c := Composer.compose (append_all ps st0) in
  (has_field (CriticTool.get_papers_for_evaluation st0) "error"
   ∧ CriticTool.deduplicate_collection st0 = (st0, NothingToDeduplicate)
   ∧ PDFReportTool.generate_report executive_summary subject st0
     = (st0, Ok "Error: Collection is empty.")
   ∧ files st0 = files st)
  ∧ length (COLLECTED_PAPERS (append_all ps st0)) = length ps
  ∧ (∀ r, r ∈ Composer.unique_papers c →
          critic_rank (Composer.heap c r) = Some 3.0%float
          ∧ critic_action (Composer.heap c r) = Some (JStr "include"))
  ∧ Composer.included_papers c = Composer.unique_papers c
  ∧ Composer.excluded_count c = 0%nat.
Proof.
  cbn zeta. set (st0 := (clear_papers st).1). set (st1 := append_all ps st0).
  destruct (append_all_spec ps st0) as (Hcp & _ & _ & Hledger & _). cbn zeta in *.
  fold st1 in Hcp, Hledger.
  destruct (compose_spec st1) as (Hheap & Hu & Hinc & Hexc). cbn zeta in *.
  set (c := Composer.compose st1) in *.
  assert (∀ r, r ∈ Composer.unique_papers c →
            critic_rank (Composer.heap c r) = Some 3.0%float
            ∧ critic_action (Composer.heap c r) = Some (JStr "include")) as Hall.
  { intros r Hr. rewrite Hu, sort_reverse_perm in Hr.
    rewrite Hheap, decide_True by done. unfold Composer.attach.
    rewrite Hledger. unfold st0. cbn. by rewrite lookup_empty. }
  assert (Composer.included_papers c = Composer.unique_papers c) as Hsame.
  { rewrite Hinc. apply filter_all. intros r Hr. unfold Composer.not_excluded.
    destruct (Hall r Hr) as [_ ->]. by rewrite bool_decide_eq_true_2. }
  split_and!; try done.
  - eexists. split; [reflexivity|]. cbn. left.
  - rewrite Hcp. cbn. by rewrite length_seq.
  - by rewrite Hexc, Hsame, Nat.sub_diag.
Qed.

(** ** _format_text *)

Section format_text.

Lemma join_empty_cons w ws : Str.join "" (w :: ws) = w +:+ Str.join "" ws.
Proof. destruct ws; cbn [Str.join]; [by rewrite append_nil_r|done]. Qed.

Lemma join_empty_app l1 l2 : Str.join "" (l1 ++ l2) = Str.join "" l1 +:+ Str.join "" l2.
Proof.
  induction l1 as [|w l1 IH]; [done|].
  change ((w :: l1) ++ l2) with (w :: (l1 ++ l2)).
  by rewrite !join_empty_cons, IH, append_assoc.
Qed.




End format_text.



(** ** The statistics of a run and the report *)

Section statistics.
Import Composer.

(** Papers with different keys that each find an entry passing a test in
    the ledger are not more than the entries that pass it. *)
Lemma count_keys (test : evaluation → bool) (ledger : gmap string evaluation)
    (keys : list string) :
  NoDup keys →
  (∀ k, k ∈ keys → ∃ ev, ledger !! k = Some ev ∧ test ev = true) →
  (length keys ≤ Statistics.count test ledger)%nat.
Proof.
  intros Hnd Hall. unfold Statistics.count.
  rewrite <-(size_list_to_set (C := gset string) keys) by done.
  rewrite <-size_dom. apply subseteq_size. intros k Hk%elem_of_list_to_set.
  destruct (Hall k Hk) as (ev & Hev & Ht). apply elem_of_dom. exists ev.
  apply map_lookup_filter_Some. split; [done|]. cbn. by rewrite Ht.
Qed.

Lemma count_le_size test ledger : (Statistics.count test ledger ≤ size ledger)%nat.
Proof. unfold Statistics.count. apply map_subseteq_size, map_filter_subseteq. Qed.

Lemma count_counted test (ledger : gmap string evaluation) :
  (if bool_decide (0 < size ledger)%nat then Statistics.count test ledger else 0%nat)
  = Statistics.count test ledger.
Proof.
  case_bool_decide as Hs; [done|]. pose proof (count_le_size test ledger). lia.
Qed.

Lemma filter_keys_NoDup (h : ref → paper) (Q : ref → Prop) `{!∀ r, Decision (Q r)} l :
  NoDup ((fun r => key (h r)) <$> l) → NoDup ((fun r => key (h r)) <$> filter Q l).
Proof.
  intros Hnd.
  assert (∀ l1 l2 : list ref, sublist l1 l2 →
            sublist ((fun r => key (h r)) <$> l1) ((fun r => key (h r)) <$> l2)) as Hs.
  { induction 1; cbn; by constructor. }
  eapply sublist_NoDup; [exact Hnd|apply Hs, sublist_filter].
Qed.

End statistics.

(** X18.  The counts that the application shows after a run bound what the
    report does with the same collection and ledger: the papers left out of
    the report are not more than the evaluations counted as "excluded", the
    papers of the report with a rank of 4.0 or more are not more than the
    evaluations counted as highly rated, and the papers the report keeps are
    not more than the papers counted as collected. *)
Theorem statistics_bound_report st :
  let c := Composer.compose st in
  let s := Statistics.statistics st in
  (Composer.excluded_count c ≤ Statistics.excluded s)%nat
  ∧ (length (filter (fun r => (4.0 <=? PDFReportTool.score_of (Composer.heap c r))%float)
               (Composer.unique_papers c)) ≤ Statistics.high_rated s)%nat
  ∧ (length (Composer.unique_papers c) ≤ Statistics.total_collected s)%nat
  ∧ (Statistics.excluded s ≤ Statistics.total_evaluated s)%nat
  ∧ (Statistics.high_rated s ≤ Statistics.total_evaluated s)%nat.
Proof.
  cbn zeta. unfold Statistics.statistics. cbn [Statistics.excluded Statistics.high_rated
    Statistics.total_collected Statistics.total_evaluated]. rewrite !count_counted.
  destruct (compose_spec st) as (Hheap & Hu & Hinc & Hexc). cbn zeta in *.
  set (c := Composer.compose st) in *.
  set (u := unique_from (objects st) ∅ (COLLECTED_PAPERS st)) in *.
  set (K := fun r => Composer.key (objects st r)).
  assert (Composer.unique_papers c ≡ₚ u) as Hperm by (rewrite Hu; apply sort_reverse_perm).
  assert (NoDup (K <$> Composer.unique_papers c)) as Hnd.
  { rewrite Hperm. apply unique_from_NoDup. }
  assert (∀ r, r ∈ Composer.unique_papers c →
            Composer.heap c r
            = Composer.attach (CRITIC_EVALUATIONS st) (K r) (objects st r)) as Hattach.
  { intros r Hr. rewrite Hperm in Hr. by rewrite Hheap, decide_True. }
  split_and!.
  - rewrite Hexc, Hinc, filter_not_excluded_length.
    rewrite <-(length_fmap K). apply count_keys.
    + by apply (filter_keys_NoDup (objects st)).
    + intros k (r & -> & [Hex Hr]%list_elem_of_filter)%list_elem_of_fmap.
      unfold excluded in Hex. rewrite (Hattach r Hr) in Hex. unfold Composer.attach in Hex.
      destruct (CRITIC_EVALUATIONS st !! K r) as [ev|] eqn:Hev; [|done].
      exists ev. split; [done|]. cbn in Hex. injection Hex as ->. done.
  - rewrite <-(length_fmap K). apply count_keys.
    + by apply (filter_keys_NoDup (objects st)).
    + intros k (r & -> & [Hhigh Hr]%list_elem_of_filter)%list_elem_of_fmap.
      rewrite (Hattach r Hr) in Hhigh. unfold Composer.attach in Hhigh.
      destruct (CRITIC_EVALUATIONS st !! K r) as [ev|] eqn:Hev; [|done].
      exists ev. split; [done|]. cbn in Hhigh. by apply Is_true_true.
  - rewrite Hperm. apply sublist_length, unique_from_sublist.
  - apply count_le_size.
  - apply count_le_size.
Qed.

(** ** The identifier of an arXiv paper *)

Section paper_id.

Lemma exists_slash s :
  existsb (fun x => bool_decide (x = "/"%char)) (list_ascii_of_string s) = negb (no_slash s).
Proof.
  induction s as [|c s IH]; [done|]. cbn. rewrite IH.
  by destruct (bool_decide (c = "/"%char)).
Qed.

Lemma after_last_slash_id id : no_slash id = true → after_last_slash id = id.
Proof.
  destruct id as [|c s]; [done|]. cbn. intros [Hc Hs]%andb_prop.
  rewrite exists_slash, Hs. cbn. apply negb_true_iff, bool_decide_eq_false in Hc.
  by rewrite decide_False.
Qed.

Lemma after_last_slash_prefix pre id :
  no_slash id = true → after_last_slash (pre +:+ "/" +:+ id) = id.
Proof.
  intros Hid. induction pre as [|c pre IH].
  - rewrite append_nil_l. change ("/" +:+ id) with (String "/" id).
    cbn [after_last_slash]. rewrite exists_slash, Hid. cbn. by rewrite decide_True.
  - rewrite append_cons. cbn [after_last_slash]. rewrite exists_slash.
    assert (no_slash (pre +:+ "/" +:+ id) = false) as ->; [|done].
    clear. induction pre as [|x pre IH]; [done|]. rewrite append_cons. cbn.
    by rewrite IH, andb_false_r.
Qed.

End paper_id.

(** X19.  The [paper_id] of a paper that [ArXivTool.search] builds is what
    stands after the last slash of the entry identifier, which is kept whole
    as the URL: an identifier [id] without a slash is recovered from
    [prefix/id] whatever the prefix, and an entry identifier without any
    slash is its own [paper_id]. *)
Theorem arxiv_paper_id get_text normalize_NFKD res id :
  no_slash id = true →
  (res_entry_id res = id ∨ ∃ pre, res_entry_id res = pre +:+ "/" +:+ id) →
  paper_id (ArXivTool.paper_data get_text normalize_NFKD res) = id
  ∧ url (ArXivTool.paper_data get_text normalize_NFKD res) = res_entry_id res.
Proof.
  intros Hid Hres. split; [|done]. cbn.
  destruct Hres as [->|[pre ->]].
  - by apply after_last_slash_id.
  - by apply after_last_slash_prefix.
Qed.

Lemma arxiv_paper_id_witness :
  paper_id (ArXivTool.paper_data (fun s => s) (fun s => s)
              (ArxivResult "Deep Learning" ["A. Author"] 2024 "A summary."
                 "http://arxiv.org/abs/2401.00001v1"))
  = "2401.00001v1".
Proof.
  apply (arxiv_paper_id (fun s => s) (fun s => s) _ "2401.00001v1").
  - reflexivity.
  - right. by exists "http://arxiv.org/abs".
Defined.

(** ** A payload that is not a list *)

(** X20.  [evaluate_papers] stores nothing from a payload that is not a
    list.  A JSON object is iterated over its keys and a string over its
    characters, none of which has a [get] method: unless it is empty, the
    reply is the [AttributeError] of the first one; a number, a Boolean or
    [null] cannot be iterated.  In every case the state is the one the call
    found. *)
Theorem evaluate_papers_not_a_list v st :
  (∀ items, v ≠ JList items) →
  CriticTool.evaluate_papers (Decoded v) st
  = (st, match v with
         | JObj [] | JStr EmptyString => CriticSuccess 0
         | JObj _ | JStr _ => CriticError AttributeError
         | _ => CriticError TypeError
         end).
Proof.
  intros Hv. unfold CriticTool.evaluate_papers.
  destruct v as [|b|n|f|s|l|d]; try done.
  - destruct s as [|c s]; cbn; by destruct st.
  - by destruct (Hv l).
  - destruct d as [|[k x] d]; cbn; by destruct st.
Qed.

(** One evaluation sent as an object, not as a list of one object. *)
Lemma evaluate_papers_not_a_list_witness :
  CriticTool.evaluate_papers
    (Decoded (JObj [("paper_title", JStr "Alpha"); ("relevance_score", JInt 5)]))
    three_papers
  = (three_papers, CriticError AttributeError).
Proof.
  exact (evaluate_papers_not_a_list
           (JObj [("paper_title", JStr "Alpha"); ("relevance_score", JInt 5)])
           three_papers ltac:(done)).
Defined.

(** ** The replacement table of clean_text *)

Section typographic.

Variable p : string.
Hypothesis p_non_ascii : non_ascii p = true.
Hypothesis p_not_empty : p ≠ EmptyString.

Lemma ascii_not_non_ascii a b :
  (128 <=? Str.ord a)%N = true → (Str.ord b <? 128)%N = true → a ≠ b.
Proof. intros Ha%N.leb_le Hb%N.ltb_lt ->. lia. Qed.

Lemma absent_ascii_append new t :
  is_ascii new = true → absent p t = true → absent p (new +:+ t) = true.
Proof.
  intros Hnew Ht. induction new as [|b new IH]; [done|].
  cbn in Hnew. apply andb_prop in Hnew as [Hb Hnew].
  rewrite append_cons. cbn [absent]. rewrite (IH Hnew), andb_true_r.
  destruct p as [|a p']; [done|]. cbn in p_non_ascii |- *.
  apply andb_prop in p_non_ascii as [Ha _].
  by rewrite decide_False by (by apply ascii_not_non_ascii).
Qed.

Lemma absent_tail c s : absent p (String c s) = true → absent p s = true.
Proof. cbn [absent]. by intros [_ ?]%andb_prop. Qed.

Variable old new : string.
Hypothesis new_ascii : is_ascii new = true.
Hypothesis new_not_empty : new ≠ EmptyString.

(** A run of non-ASCII bytes at the head of the text after a replacement
    was there before it. *)
Lemma starts_with_replace q s :
  non_ascii q = true →
  Str.starts_with q (Str.replace_from 0 old new s) = true → Str.starts_with q s = true.
Proof.
  revert q. induction s as [|c s IH]; intros q Hq; [done|].
  destruct q as [|a q]; [done|]. cbn in Hq. apply andb_prop in Hq as [Ha Hq].
  cbn [Str.replace_from]. destruct (Str.starts_with old (String c s)).
  - destruct new as [|b new']; [done|]. cbn in new_ascii.
    apply andb_prop in new_ascii as [Hb _]. rewrite append_cons. cbn.
    by rewrite decide_False by (by apply ascii_not_non_ascii).
  - cbn. case_decide; [by apply IH|done].
Qed.

Lemma starts_with_kept c s :
  Str.starts_with p (String c (Str.replace_from 0 old new s)) = true →
  Str.starts_with p (String c s) = true.
Proof.
  destruct p as [|a q]; [done|]. cbn in p_non_ascii |- *.
  apply andb_prop in p_non_ascii as [_ Hq].
  case_decide; [by apply starts_with_replace|done].
Qed.

(** A replacement by ASCII text brings no occurrence of [p] into a text
    that has none. *)
Lemma absent_replace k s :
  absent p s = true → absent p (Str.replace_from k old new s) = true.
Proof.
  revert k. induction s as [|c s IH]; intros k Hs; [done|].
  pose proof (absent_tail _ _ Hs) as Hs'.
  destruct k as [|k]; cbn [Str.replace_from]; [|by apply IH].
  destruct (Str.starts_with old (String c s)).
  - apply absent_ascii_append; [done|by apply IH].
  - cbn [absent]. rewrite (IH 0%nat Hs'), andb_true_r. apply negb_true_iff.
    destruct (Str.starts_with p (String c (Str.replace_from 0 old new s))) eqn:Hp; [|done].
    apply starts_with_kept in Hp. cbn [absent] in Hs. by rewrite Hp in Hs.
Qed.

End typographic.

Section typographic_table.

(** The replacement of [old] leaves no occurrence of [old]. *)
Lemma absent_replaced old new k s :
  non_ascii old = true → old ≠ EmptyString → is_ascii new = true → new ≠ EmptyString →
  absent old (Str.replace_from k old new s) = true.
Proof.
  intros Hold Hne Hnew Hnew'. revert k. induction s as [|c s IH]; intros k; [done|].
  destruct k as [|k]; cbn [Str.replace_from]; [|by apply IH].
  destruct (Str.starts_with old (String c s)) eqn:Hstart.
  - by apply absent_ascii_append.
  - cbn [absent]. rewrite IH, andb_true_r. apply negb_true_iff.
    destruct (Str.starts_with old (String c (Str.replace_from 0 old new s))) eqn:Hp; [|done].
    apply starts_with_kept in Hp; [congruence|done..].
Qed.

Lemma absent_replace_all p table s :
  non_ascii p = true → p ≠ EmptyString →
  Forall (fun r => is_ascii r.2 = true ∧ r.2 ≠ EmptyString) table →
  absent p s = true → absent p (replace_all table s) = true.
Proof.
  intros Hp Hne Htable. revert s. unfold replace_all.
  induction Htable as [|[old new] table [Hnew Hnew'] Htable IH]; intros s Hs; [done|].
  cbn. apply IH. by apply absent_replace.
Qed.

Lemma absent_replaced_all table s r :
  Forall (fun r => non_ascii r.1 = true ∧ r.1 ≠ EmptyString
                   ∧ is_ascii r.2 = true ∧ r.2 ≠ EmptyString) table →
  r ∈ table → absent r.1 (replace_all table s) = true.
Proof.
  intros Htable. revert s.
  induction Htable as [|[old new] table (Hold & Hne & Hnew & Hnew') Htable IH];
    intros s Hr; [by apply elem_of_nil in Hr|].
  apply elem_of_cons in Hr as [->|Hr].
  - change (replace_all ((old, new) :: table) s)
      with (replace_all table (Str.replace old new s)).
    apply absent_replace_all; [done|done| |by apply absent_replaced].
    eapply Forall_impl; [done|]. naive_solver.
  - change (replace_all ((old, new) :: table) s)
      with (replace_all table (Str.replace old new s)).
    by apply IH.
Qed.

Lemma replacements_typographic :
  Forall (fun r => non_ascii r.1 = true ∧ r.1 ≠ EmptyString
                   ∧ is_ascii r.2 = true ∧ r.2 ≠ EmptyString) replacements.
Proof. unfold replacements. repeat constructor; done. Qed.

Lemma absent_escape p s :
  non_ascii p = true → p ≠ EmptyString → absent p s = true → absent p (escape s) = true.
Proof.
  intros Hp Hne Hs. unfold escape, Str.replace.
  repeat (apply absent_replace; [done..|]). done.
Qed.

End typographic_table.

(** X21.  None of the twelve typographic characters of the replacement
    table is left in what [clean_text] returns (the four hyphens and dashes,
    the horizontal bar, the four curly quotes, the ellipsis, the
    non-breaking space), whatever the HTML parser and the Unicode normaliser
    have made of the text. *)
Theorem clean_text_no_typographic get_text normalize_NFKD text r :
  r ∈ replacements → absent r.1 (clean_text get_text normalize_NFKD text) = true.
Proof.
  intros Hr.
  pose proof replacements_typographic as Htable.
  pose proof (proj1 (Forall_forall _ _) Htable r Hr) as (Hold & Hne & _).
  assert (absent r.1 NO_ABSTRACT = true) as Hplaceholder.
  { clear -Hr. revert r Hr. apply Forall_forall. unfold replacements.
    repeat constructor. }
  destruct text as [[|c t]|]; try done. cbn [clean_text].
  apply absent_escape; [done..|]. by apply absent_replaced_all.
Qed.

(** An em dash between two words becomes two hyphens. *)
Lemma clean_text_no_typographic_witness :
  absent (Str.chr 0x2014)
    (clean_text (fun s => s) (fun s => s) (Some ("a" +:+ Str.chr 0x2014 +:+ "b"))) = true
  ∧ clean_text (fun s => s) (fun s => s) (Some ("a" +:+ Str.chr 0x2014 +:+ "b")) = "a--b".
Proof.
  split; [|reflexivity].
  apply (clean_text_no_typographic (fun s => s) (fun s => s) _ (Str.chr 0x2014, "--")).
  unfold replacements. set_solver.
Defined.
